(** * Job launcher service and fortune reward filter: model and properties

    Shallow embedding of
    - [packages/apps/job-launcher/server/src/modules/job/job.service.ts]
      ([JobService.createJob], [launchJob], [saveManifest],
      [validateManifest], [getManifest], [sendWebhook], [getResult]);
    - [packages/examples/fortune/reputation-oracle/src/services/rewards.ts]
      ([filterAddressesToReward]);
    - the reputation contract ([addReputations], [getReputations], the
      constructor, [setMinimumStake]) and [UserService.registerAddress].

    The service is a sequence of calls to collaborators (repositories, the
    storage client, the escrow client, the HTTP client).  Each method is
    written in a state-and-exception monad over a [State] that holds the two
    database tables and the ordered trace of every call that leaves the
    service; what a collaborator answers is read from an [Env].

    A collaborator throws where the service expects it to:
    [web3Service.validateChainId], which is called for nothing else, and
    [paymentRepository.create], which is called inside [try].  The other
    calls return, with the answers that the service tests for ([undefined],
    an empty string, an empty array) among the possible ones.  Building the
    signer and the escrow client leaves no trace. *)

From Stdlib Require Import ZArith QArith Qcanon String Ascii List Lia Bool.
From stdpp Require Import base decidable option numbers list strings gmap.

Set Implicit Arguments.
Local Open Scope string_scope.
Local Open Scope list_scope.
Local Open Scope Z_scope.

(** ** Numbers

    [common/utils/decimal] ([add], [div], [lt], [mul]) is not among the
    sources: the service is written against the interface below.  [neg] is
    the unary minus of the language and [lit] a numeric literal. *)
Module decimal.
Class Ops (num : Type) := {
  add : num -> num -> num;
  mul : num -> num -> num;
  div : num -> num -> num;
  lt  : num -> num -> bool;
  neg : num -> num;
  lit : Z -> num;
}.
End decimal.

(** ** Enumerations: [common/enums/job.ts] *)
Inductive JobStatus :=
  PENDING | PAID | LAUNCHED | FAILED | TO_CANCEL | CANCELED.

Inductive JobRequestType := IMAGE_POINTS | IMAGE_BOXES | FORTUNE.

#[global] Instance JobStatus_eq_dec : EqDecision JobStatus.
Proof. solve_decision. Defined.

#[global] Instance JobRequestType_eq_dec : EqDecision JobRequestType.
Proof. solve_decision. Defined.

(** The members of [common/enums/payment] that the service names. *)
Inductive Currency := USD.
Inductive TokenId := HMT.
Inductive PaymentSource := BALANCE.
Inductive PaymentType := WITHDRAWAL.
Inductive PaymentStatus := SUCCEEDED.

(** ** Errors

    The messages of [common/constants/errors], by name. *)
Inductive ErrorMessage :=
| ErrorJob_NotEnoughFunds
| ErrorJob_NotCreated
| ErrorJob_NotFound
| ErrorJob_ManifestNotFound
| ErrorJob_ManifestValidationFailed
| ErrorJob_WebhookWasNotSent
| ErrorJob_ResultNotFound
| ErrorJob_ResultValidationFailed
| ErrorEscrow_NotCreated
| ErrorBucket_UnableSaveFile
| ErrorPayment_IncorrectAmount
| ErrorPayment_NotSuccess
| ErrorWeb3_InvalidChainId.

(** The error object a repository call rejects with: whether it is an
    instance of [QueryFailedError], and its message. *)
Record RepositoryError := {
  isQueryFailedError : bool;
  message : string;
}.

(** What a [throw] carries: the HTTP exceptions of the framework, the
    [TypeError] of the language when a property of [undefined] is read, and
    the error object of a rejected repository call. *)
Inductive Exception :=
| BadRequestException (m : ErrorMessage)
| ConflictException (m : ErrorMessage)
| NotFoundException (m : ErrorMessage)
| BadGatewayException (m : ErrorMessage)
| TypeError
| ErrorObject (e : RepositoryError).

(** ** Strings: [String.prototype.includes] and [toLowerCase] *)
Fixpoint includes (needle hay : string) : bool :=
  String.prefix needle hay ||
  match hay with
  | EmptyString => false
  | String _ rest => includes needle rest
  end.

Definition lowerAscii (c : ascii) : ascii :=
  let n := nat_of_ascii c in
  if ((65 <=? n)%nat && (n <=? 90)%nat)%bool then ascii_of_nat (n + 32) else c.

(** [toLowerCase] on the ASCII letters, which is all the message constant
    it is applied to contains. *)
Fixpoint toLowerCase (s : string) : string :=
  match s with
  | EmptyString => EmptyString
  | String c rest => String (lowerAscii c) (toLowerCase rest)
  end.

(** Truthiness of an optional string ([!escrowAddress], [!finalResultUrl]). *)
Definition truthyStr (o : option string) : bool :=
  match o with
  | Some s => negb (String.eqb s "")
  | None => false
  end.

(** Truthiness of an optional number ([if (chainId)]). *)
Definition truthyZ (o : option Z) : bool :=
  match o with
  | Some z => negb (z =? 0)
  | None => false
  end.

(** ** Data transfer objects and entities *)

(** [JobFortuneDto | JobCvatDto]: the fields the service reads.  A field
    that the object does not have is [None]. *)
Module JobDto.
Record t {num : Type} := mk {
  chainId : option Z;
  fundAmount : num;
  requesterDescription : option string;
  dataUrl : option string;
  labels : option (list string);
  minQuality : option num;
  gtUrl : option string;
  jobBounty : option string;
}.
Arguments t : clear implicits.
End JobDto.

Module CvatData.
Record t := mk { data_url : option string }.
End CvatData.

Record Label := { name : string }.

Module CvatAnnotation.
Record t {num : Type} := mk {
  labels : option (list Label);
  description : option string;
  type : option JobRequestType;
  job_size : option num;
  max_time : option num;
}.
Arguments t : clear implicits.
End CvatAnnotation.

Module CvatValidation.
Record t {num : Type} := mk {
  min_quality : option num;
  val_size : option num;
  gt_url : option string;
}.
Arguments t : clear implicits.
End CvatValidation.

(** [FortuneManifestDto | CvatManifestDto] as one object: [spread] holds the
    properties copied by [...dto], the other fields are the properties the
    two object literals of [createJob] write and [launchJob] reads. *)
Module Manifest.
Record t {num : Type} := mk {
  spread : option (JobDto.t num);
  requestType : option JobRequestType;
  fundAmount : option num;
  data : option CvatData.t;
  annotation : option (CvatAnnotation.t num);
  validation : option (CvatValidation.t num);
  job_bounty : option string;
}.
Arguments t : clear implicits.
End Manifest.

Module UploadFile.
Record t := mk { url : string; hash : string }.
End UploadFile.

Module SaveManifestDto.
Record t := mk { manifestUrl : string; manifestHash : string }.
End SaveManifestDto.

Module SendWebhookDto.
Record t := mk { escrowAddress : option string; chainId : Z }.
End SendWebhookDto.

Module JobEntity.
Record t {num : Type} := mk {
  id : Z;
  chainId : Z;
  userId : Z;
  manifestUrl : string;
  manifestHash : string;
  fee : num;
  fundAmount : num;
  status : JobStatus;
  waitUntil : Z;
  escrowAddress : option string;
}.
Arguments t : clear implicits.

Definition set_status {num} (s : JobStatus) (j : t num) : t num :=
  mk (id j) (chainId j) (userId j) (manifestUrl j) (manifestHash j)
     (fee j) (fundAmount j) s (waitUntil j) (escrowAddress j).

Definition set_escrowAddress {num} (a : option string) (j : t num) : t num :=
  mk (id j) (chainId j) (userId j) (manifestUrl j) (manifestHash j)
     (fee j) (fundAmount j) (status j) (waitUntil j) a.
End JobEntity.

Module PaymentEntity.
Record t {num : Type} := mk {
  userId : Z;
  source : PaymentSource;
  type : PaymentType;
  amount : num;
  currency : TokenId;
  rate : num;
  status : PaymentStatus;
}.
Arguments t : clear implicits.
End PaymentEntity.

Module EscrowConfig.
Record t := mk {
  recordingOracle : string;
  reputationOracle : string;
  recordingOracleFee : Z;
  reputationOracleFee : Z;
  manifestUrl : string;
  manifestHash : string;
}.
End EscrowConfig.

(** The two classes a manifest is validated against, and the two a result
    is validated against. *)
Inductive ManifestClass := FortuneManifestDto | CvatManifestDto.
Inductive ResultClass := FortuneFinalResultDto | CvatFinalResultDto.

(** One entry of the array [validate] resolves to. *)
Definition ValidationError := string.

(** * The job service *)
Section JobService.
Context {num : Type} `{!decimal.Ops num}.
(** The type of a downloaded result document. *)
Context {ResultDoc : Type}.

(** What is written by [this.logger.log]. *)
Inductive LogEntry :=
| LogMessage (m : ErrorMessage)
| LogPostgres (constant : string)
| LogError (e : Exception)
| LogValidation (m : ErrorMessage) (errors : list (list ValidationError)).

(** ** What the collaborators answer

    None of the collaborators is among the sources: their answers are the
    fields of this record.  A configuration value is the field named after
    its [ConfigNames] key. *)
Record Env := {
  (** [web3Service.validateChainId]: the exception it throws, if any. *)
  web3Service_validateChainId : Z -> option Exception;
  (** [NETWORKS[chainId]!.hmtAddress]. *)
  NETWORKS_hmtAddress : Z -> string;
  paymentService_getUserBalance : list (PaymentEntity.t num) -> Z -> num;
  getRate : Currency -> TokenId -> num;
  JOB_LAUNCHER_FEE : num;
  CVAT_JOB_SIZE : num;
  CVAT_MAX_TIME : num;
  CVAT_VAL_SIZE : num;
  RECORDING_ORACLE_ADDRESS : string;
  REPUTATION_ORACLE_ADDRESS : string;
  RECORDING_ORACLE_FEE : Z;
  REPUTATION_ORACLE_FEE : Z;
  EXCHANGE_ORACLE_WEBHOOK_URL : string;
  (** [ErrorPostgres.NumericFieldOverflow]. *)
  ErrorPostgres_NumericFieldOverflow : string;
  (** First element of what [storageClient.uploadFiles([manifest], bucket)]
      resolves to. *)
  storageClient_uploadFiles : Manifest.t num -> option UploadFile.t;
  (** [StorageClient.downloadFileFromUrl]; [None] is a falsy answer. *)
  downloadManifest : string -> option (Manifest.t num);
  downloadResult : string -> option ResultDoc;
  (** [routingProtocolService.selectNetwork], by the number of earlier
      calls. *)
  routingProtocolService_selectNetwork : nat -> Z;
  (** [new Date()]. *)
  now : Z;
  (** Whether [jobRepository.create] resolves to the entity. *)
  jobRepository_creates : JobEntity.t num -> bool;
  (** The error [paymentRepository.create] rejects with, if any. *)
  paymentRepository_rejects : PaymentEntity.t num -> option RepositoryError;
  escrowClient_createAndSetupEscrow :
    Z -> string -> list string -> EscrowConfig.t -> option string;
  escrowClient_getResultsUrl : Z -> option string -> option string;
  (** Whether the [data] of the response to [httpService.post] is truthy. *)
  httpService_post : string -> SendWebhookDto.t -> bool;
  (** [validate] of class-validator on an instance of the class that the
      document was assigned to. *)
  validateManifestDto : ManifestClass -> Manifest.t num -> list ValidationError;
  validateResultDto : ResultClass -> ResultDoc -> list ValidationError;
}.

(** ** Calls that leave the service, in the order they are made *)
Inductive Event :=
| EvLog (entry : LogEntry)
| EvValidateChainId (chainId : Z)
| EvGetUserBalance (userId : Z)
| EvGetRate (from : Currency) (to : TokenId)
| EvUploadFiles (manifest : Manifest.t num)
| EvSelectNetwork
| EvJobCreate (created : option (JobEntity.t num))
| EvPaymentCreate (payment : PaymentEntity.t num)
                  (rejected : option RepositoryError)
| EvJobSave (job : JobEntity.t num)
| EvCreateAndSetupEscrow (chainId : Z) (token : string)
                         (config : EscrowConfig.t)
| EvDownload (url : string)
| EvTransfer (chainId : Z) (recipient : option string) (amount : num)
| EvGetResultsUrl (chainId : Z) (escrowAddress : option string)
| EvPost (url : string) (body : SendWebhookDto.t).

(** ** State: the two tables, the selector's call count, the trace *)
Record State := {
  jobs : gmap Z (JobEntity.t num);
  jobSeq : Z;
  payments : list (PaymentEntity.t num);
  routingCalls : nat;
  trace : list Event;
}.

(** ** The monad *)
Inductive Outcome (A : Type) :=
| Returned (a : A)
| Thrown (e : Exception).
Arguments Returned {A} a.
Arguments Thrown {A} e.

Definition M (A : Type) : Type := State -> Outcome A * State.

Definition ret {A} (a : A) : M A := fun st => (Returned a, st).

Definition bind {A B} (c : M A) (k : A -> M B) : M B := fun st =>
  match c st with
  | (Returned a, st') => k a st'
  | (Thrown e, st') => (Thrown e, st')
  end.

Definition throw {A} (e : Exception) : M A := fun st => (Thrown e, st).

Definition tryCatch {A} (body : M A) (handler : Exception -> M A) : M A :=
  fun st =>
    match body st with
    | (Returned a, st') => (Returned a, st')
    | (Thrown e, st') => handler e st'
    end.

Definition emit (ev : Event) : M unit := fun st =>
  (Returned tt,
   {| jobs := jobs st; jobSeq := jobSeq st; payments := payments st;
      routingCalls := routingCalls st; trace := trace st ++ [ev] |}).

Definition when (b : bool) (c : M unit) : M unit :=
  if b then c else ret tt.
End JobService.

Arguments Env : clear implicits.
Arguments State : clear implicits.
Arguments Event : clear implicits.
Arguments M : clear implicits.
Arguments Returned {A} a.
Arguments Thrown {A} e.

Declare Scope service_scope.
Delimit Scope service_scope with service.
Notation "'let!' x ':=' c 'in' k" := (bind c (fun x => k))
  (at level 10, x name, c at level 100, k at level 200) : service_scope.
Notation "'do!' c 'in' k" := (bind c (fun _ => k))
  (at level 10, c at level 100, k at level 200) : service_scope.

Section Methods.
Context {num : Type} `{!decimal.Ops num} {ResultDoc : Type}.
Variable env : Env num ResultDoc.

Local Open Scope service_scope.
Local Abbreviation M := (M num).
Local Abbreviation log entry := (emit (EvLog entry)).

(** *** Collaborator calls *)

(** [web3Service.validateChainId(chainId)]. *)
Definition validateChainId (chainId : Z) : M unit :=
  do! emit (EvValidateChainId chainId) in
  match web3Service_validateChainId env chainId with
  | Some e => throw e
  | None => ret tt
  end.

(** Modelled from the spec: [paymentService.getUserBalance], which is not
    among the sources.  The balance is derived from the payment records on
    each read; how is left to [Env]. *)
Definition getUserBalance (userId : Z) : M num := fun st =>
  bind (emit (EvGetUserBalance userId))
       (fun _ => ret (paymentService_getUserBalance env (payments st) userId))
       st.

(** Modelled from the spec: [routingProtocolService.selectNetwork], which
    is not among the sources.  The chain it picks is determined by the
    configuration and the number of calls made so far. *)
Definition selectNetwork : M Z := fun st =>
  (Returned (routingProtocolService_selectNetwork env (routingCalls st)),
   {| jobs := jobs st; jobSeq := jobSeq st; payments := payments st;
      routingCalls := S (routingCalls st);
      trace := trace st ++ [EvSelectNetwork] |}).

(** Modelled from the spec: [jobRepository.create], which is not among the
    sources.  It persists a row with the given fields, no escrow address
    and the next identifier of the table, and resolves to it. *)
Definition jobRepository_create
    (chainId userId : Z) (manifestUrl manifestHash : string)
    (fee fundAmount : num) (status : JobStatus) (waitUntil : Z)
  : M (option (JobEntity.t num)) := fun st =>
  let row := JobEntity.mk (jobSeq st) chainId userId manifestUrl manifestHash
                          fee fundAmount status waitUntil None in
  if jobRepository_creates env row then
    (Returned (Some row),
     {| jobs := <[JobEntity.id row := row]> (jobs st);
        jobSeq := jobSeq st + 1; payments := payments st;
        routingCalls := routingCalls st;
        trace := trace st ++ [EvJobCreate (Some row)] |})
  else
    (Returned None,
     {| jobs := jobs st; jobSeq := jobSeq st; payments := payments st;
        routingCalls := routingCalls st;
        trace := trace st ++ [EvJobCreate None] |}).

(** [jobEntity.save()]: the row of this identifier becomes [job]. *)
Definition save (job : JobEntity.t num) : M unit := fun st =>
  (Returned tt,
   {| jobs := <[JobEntity.id job := job]> (jobs st);
      jobSeq := jobSeq st; payments := payments st;
      routingCalls := routingCalls st;
      trace := trace st ++ [EvJobSave job] |}).

(** Modelled from the spec: [jobRepository.findOne({ id, userId, status })],
    which is not among the sources.  It resolves to the row of that
    identifier if its owner and status are the given ones, and to nothing
    otherwise. *)
Definition jobRepository_findOne (id userId : Z) (status : JobStatus)
  : M (option (JobEntity.t num)) := fun st =>
  (Returned
     (match jobs st !! id with
      | Some job =>
          if bool_decide (JobEntity.userId job = userId)
             && bool_decide (JobEntity.status job = status)
          then Some job else None
      | None => None
      end), st).

(** Modelled from the spec: [paymentRepository.create], which is not among
    the sources.  It appends an immutable payment record, or rejects and
    records nothing. *)
Definition paymentRepository_create (payment : PaymentEntity.t num)
  : M unit := fun st =>
  match paymentRepository_rejects env payment with
  | Some err =>
      (Thrown (ErrorObject err),
       {| jobs := jobs st; jobSeq := jobSeq st; payments := payments st;
          routingCalls := routingCalls st;
          trace := trace st ++ [EvPaymentCreate payment (Some err)] |})
  | None =>
      (Returned tt,
       {| jobs := jobs st; jobSeq := jobSeq st;
          payments := payments st ++ [payment];
          routingCalls := routingCalls st;
          trace := trace st ++ [EvPaymentCreate payment None] |})
  end.

(** *** [saveManifest] *)
Definition saveManifest (manifest : Manifest.t num) : M SaveManifestDto.t :=
  do! emit (EvUploadFiles manifest) in
  match storageClient_uploadFiles env manifest with
  | None =>
      do! log (LogMessage ErrorBucket_UnableSaveFile) in
      throw (BadGatewayException ErrorBucket_UnableSaveFile)
  | Some file =>
      let manifestUrl := UploadFile.url file in
      ret (SaveManifestDto.mk manifestUrl (UploadFile.hash file))
  end.

(** *** The amounts of [createJob] *)
Definition createJob_fee (fundAmount : num) : num :=
  decimal.mul (decimal.div (JOB_LAUNCHER_FEE env) (decimal.lit 100)) fundAmount.

Definition createJob_usdTotalAmount (fundAmount : num) : num :=
  decimal.add fundAmount (createJob_fee fundAmount).

Definition createJob_tokenFundAmount (fundAmount rate : num) : num :=
  decimal.mul fundAmount rate.

Definition createJob_tokenFee (fundAmount rate : num) : num :=
  decimal.mul (createJob_fee fundAmount) rate.

Definition createJob_tokenTotalAmount (fundAmount rate : num) : num :=
  decimal.add (createJob_tokenFundAmount fundAmount rate)
              (createJob_tokenFee fundAmount rate).

(** The manifest of the [FORTUNE] branch:
    [{ ...dto, requestType, fundAmount: tokenFundAmount }]. *)
Definition fortuneManifest (dto : JobDto.t num) (requestType : JobRequestType)
    (tokenFundAmount : num) : Manifest.t num :=
  Manifest.mk (Some dto) (Some requestType) (Some tokenFundAmount)
              None None None None.

(** The manifest of the other branch, given [dto.labels]. *)
Definition cvatManifest (dto : JobDto.t num) (requestType : JobRequestType)
    (labels : list string) : Manifest.t num :=
  Manifest.mk None None None
    (Some (CvatData.mk (JobDto.dataUrl dto)))
    (Some (CvatAnnotation.mk
             (Some (map (fun item => {| name := item |}) labels))
             (JobDto.requesterDescription dto)
             (Some requestType)
             (Some (CVAT_JOB_SIZE env))
             (Some (CVAT_MAX_TIME env))))
    (Some (CvatValidation.mk (JobDto.minQuality dto)
                             (Some (CVAT_VAL_SIZE env))
                             (JobDto.gtUrl dto)))
    (JobDto.jobBounty dto).

(** Whether the caught error is a [QueryFailedError] whose message
    includes the lower-cased overflow constant. *)
Definition isNumericFieldOverflow (e : Exception) : bool :=
  match e with
  | ErrorObject err =>
      isQueryFailedError err
      && includes (toLowerCase (ErrorPostgres_NumericFieldOverflow env))
                  (message err)
  | _ => false
  end.

(** *** [createJob] *)
Definition createJob (userId : Z) (requestType : JobRequestType)
    (dto : JobDto.t num) : M Z :=
  let chainId := JobDto.chainId dto in
  let fundAmount := JobDto.fundAmount dto in
  do! match chainId with
      | Some c => when (truthyZ chainId) (validateChainId c)
      | None => ret tt
      end in
  let! userBalance := getUserBalance userId in
  let! rate := (do! emit (EvGetRate USD HMT) in ret (getRate env USD HMT)) in
  let fee := createJob_fee fundAmount in
  let usdTotalAmount := createJob_usdTotalAmount fundAmount in
  do! when (decimal.lt userBalance usdTotalAmount)
        (do! log (LogMessage ErrorJob_NotEnoughFunds) in
         throw (BadRequestException ErrorJob_NotEnoughFunds)) in
  let tokenFundAmount := createJob_tokenFundAmount fundAmount rate in
  let tokenFee := createJob_tokenFee fundAmount rate in
  let tokenTotalAmount := createJob_tokenTotalAmount fundAmount rate in
  let! saved :=
    (if bool_decide (requestType = FORTUNE) then
       saveManifest (fortuneManifest dto requestType tokenFundAmount)
     else
       match JobDto.labels dto with
       | None => throw TypeError
       | Some labels => saveManifest (cvatManifest dto requestType labels)
       end) in
  let manifestUrl := SaveManifestDto.manifestUrl saved in
  let manifestHash := SaveManifestDto.manifestHash saved in
  let! jobChainId :=
    match chainId with
    | Some c => ret c
    | None => selectNetwork
    end in
  let! jobEntity :=
    jobRepository_create jobChainId userId manifestUrl manifestHash
                         tokenFee tokenFundAmount PENDING (now env) in
  match jobEntity with
  | None =>
      do! log (LogMessage ErrorJob_NotCreated) in
      throw (NotFoundException ErrorJob_NotCreated)
  | Some jobEntity =>
      do! tryCatch
            (paymentRepository_create
               (PaymentEntity.mk userId BALANCE WITHDRAWAL
                  (decimal.neg tokenTotalAmount) HMT
                  (decimal.div (decimal.lit 1) rate) SUCCEEDED))
            (fun error =>
               if isNumericFieldOverflow error then
                 do! log (LogPostgres
                            (ErrorPostgres_NumericFieldOverflow env)) in
                 throw (ConflictException ErrorPayment_IncorrectAmount)
               else
                 do! log (LogError error) in
                 throw (ConflictException ErrorPayment_NotSuccess)) in
      let jobEntity := JobEntity.set_status PAID jobEntity in
      do! save jobEntity in
      ret (JobEntity.id jobEntity)
  end.

(** *** [validateManifest] *)
Definition validateManifest (manifest : Manifest.t num) : M bool :=
  let dtoCheck :=
    if bool_decide (Manifest.requestType manifest = Some FORTUNE)
    then FortuneManifestDto else CvatManifestDto in
  let validationErrors := validateManifestDto env dtoCheck manifest in
  if (0 <? length validationErrors)%nat then
    do! log (LogValidation ErrorJob_ManifestValidationFailed
                           [validationErrors]) in
    throw (NotFoundException ErrorJob_ManifestValidationFailed)
  else ret true.

(** *** [getManifest] *)
Definition getManifest (manifestUrl : string) : M (Manifest.t num) :=
  do! emit (EvDownload manifestUrl) in
  match downloadManifest env manifestUrl with
  | None => throw (NotFoundException ErrorJob_ManifestNotFound)
  | Some manifest => ret manifest
  end.

(** *** [sendWebhook] *)
Definition sendWebhook (webhookUrl : string) (webhookData : SendWebhookDto.t)
  : M bool :=
  do! emit (EvPost webhookUrl webhookData) in
  if httpService_post env webhookUrl webhookData then ret true
  else
    do! log (LogMessage ErrorJob_WebhookWasNotSent) in
    throw (NotFoundException ErrorJob_WebhookWasNotSent).

(** [(manifest as CvatManifestDto)?.annotation?.type] is truthy. *)
Definition hasAnnotationType (manifest : Manifest.t num) : bool :=
  match Manifest.annotation manifest with
  | Some annotation =>
      match CvatAnnotation.type annotation with
      | Some _ => true
      | None => false
      end
  | None => false
  end.

(** *** [launchJob] *)
Definition launchJob (jobEntity : JobEntity.t num) : M (JobEntity.t num) :=
  let chainId := JobEntity.chainId jobEntity in
  let escrowConfig :=
    EscrowConfig.mk (RECORDING_ORACLE_ADDRESS env)
                    (REPUTATION_ORACLE_ADDRESS env)
                    (RECORDING_ORACLE_FEE env)
                    (REPUTATION_ORACLE_FEE env)
                    (JobEntity.manifestUrl jobEntity)
                    (JobEntity.manifestHash jobEntity) in
  let! escrowAddress :=
    (do! emit (EvCreateAndSetupEscrow chainId (NETWORKS_hmtAddress env chainId)
                                      escrowConfig) in
     ret (escrowClient_createAndSetupEscrow env chainId
            (NETWORKS_hmtAddress env chainId) [] escrowConfig)) in
  do! when (negb (truthyStr escrowAddress))
        (do! log (LogMessage ErrorEscrow_NotCreated) in
         throw (NotFoundException ErrorEscrow_NotCreated)) in
  let! manifest := getManifest (JobEntity.manifestUrl jobEntity) in
  do! validateManifest manifest in
  do! emit (EvTransfer chainId escrowAddress
                       (JobEntity.fundAmount jobEntity)) in
  let jobEntity := JobEntity.set_escrowAddress escrowAddress jobEntity in
  let jobEntity := JobEntity.set_status LAUNCHED jobEntity in
  do! save jobEntity in
  do! when (hasAnnotationType manifest)
        (do! sendWebhook (EXCHANGE_ORACLE_WEBHOOK_URL env)
               (SendWebhookDto.mk (JobEntity.escrowAddress jobEntity)
                                  (JobEntity.chainId jobEntity)) in
         ret tt) in
  ret jobEntity.

(** *** [getResult] *)
Definition getResult (userId jobId : Z) : M ResultDoc :=
  let! jobEntity := jobRepository_findOne jobId userId LAUNCHED in
  match jobEntity with
  | None =>
      do! log (LogMessage ErrorJob_NotFound) in
      throw (NotFoundException ErrorJob_NotFound)
  | Some jobEntity =>
      let chainId := JobEntity.chainId jobEntity in
      let! finalResultUrl :=
        (do! emit (EvGetResultsUrl chainId
                                   (JobEntity.escrowAddress jobEntity)) in
         ret (escrowClient_getResultsUrl env chainId
                (JobEntity.escrowAddress jobEntity))) in
      if negb (truthyStr finalResultUrl) then
        do! log (LogMessage ErrorJob_ResultNotFound) in
        throw (NotFoundException ErrorJob_ResultNotFound)
      else
        let url := match finalResultUrl with Some url => url | None => "" end in
        do! emit (EvDownload url) in
        match downloadResult env url with
        | None => throw (NotFoundException ErrorJob_ResultNotFound)
        | Some result =>
            let fortuneValidationErrors :=
              validateResultDto env FortuneFinalResultDto result in
            let imageLabelBinaryValidationErrors :=
              validateResultDto env CvatFinalResultDto result in
            if (0 <? length fortuneValidationErrors)%nat
               && (0 <? length imageLabelBinaryValidationErrors)%nat
            then
              do! log (LogValidation ErrorJob_ResultValidationFailed
                         [fortuneValidationErrors;
                          imageLabelBinaryValidationErrors]) in
              throw (NotFoundException ErrorJob_ResultValidationFailed)
            else ret result
        end
  end.
End Methods.

(** * The fortune reward filter: [rewards.ts] *)
Module rewards.
Record FortuneEntry := { worker : string; fortune : string }.

Record ReputationEntry := { workerAddress : string; reputation : Z }.

(** The one member of [web3] that is used: [web3.utils.toChecksumAddress]. *)
Record Web3 := { toChecksumAddress : string -> string }.

Record Rewards := {
  workerAddresses : list string;
  reputationValues : list ReputationEntry;
}.

(** The properties every object literal inherits from [Object.prototype];
    each is a function or an object, hence truthy. *)
Definition objectPrototype : list string :=
  [ "constructor"; "__defineGetter__"; "__defineSetter__"; "hasOwnProperty";
    "__lookupGetter__"; "__lookupSetter__"; "isPrototypeOf";
    "propertyIsEnumerable"; "toString"; "valueOf"; "__proto__";
    "toLocaleString" ]%string.

(** Truthiness of [tmpHashMap[key]] for [tmpHashMap] an object literal
    with the own properties [own]: an own property first, then the
    prototype. *)
Definition truthyAt (own : gmap string bool) (key : string) : bool :=
  match own !! key with
  | Some b => b
  | None => bool_decide (key ∈ objectPrototype)
  end.

(** The three accumulators of the loop. *)
Record Loop := {
  filteredResults : list FortuneEntry;
  reputation_acc : list ReputationEntry;
  tmpHashMap : gmap string bool;
}.

(** The body of the [forEach]. *)
Definition step (acc : Loop) (fortuneEntry : FortuneEntry) : Loop :=
  if truthyAt (tmpHashMap acc) (fortune fortuneEntry) then
    {| filteredResults := filteredResults acc;
       reputation_acc :=
         reputation_acc acc
         ++ [{| workerAddress := worker fortuneEntry; reputation := -1 |}];
       tmpHashMap := tmpHashMap acc |}
  else
    {| filteredResults := filteredResults acc ++ [fortuneEntry];
       reputation_acc :=
         reputation_acc acc
         ++ [{| workerAddress := worker fortuneEntry; reputation := 1 |}];
       tmpHashMap := <[fortune fortuneEntry := true]> (tmpHashMap acc) |}.

Definition filterAddressesToReward (web3 : Web3)
    (addressFortunesEntries : list FortuneEntry) : Rewards :=
  let final :=
    fold_left step addressFortunesEntries
              {| filteredResults := []; reputation_acc := [];
                 tmpHashMap := ∅ |} in
  {| workerAddresses :=
       map (toChecksumAddress web3) (map worker (filteredResults final));
     reputationValues := reputation_acc final |}.
End rewards.

(** * Exact decimal arithmetic *)
Module exact.
Definition ofZ (z : Z) : Qc := Q2Qc (inject_Z z).

(** Modelled from the spec: the helpers [add], [div], [lt] and [mul] of
    [common/utils/decimal], which are not among the sources.  The spec takes
    the amounts to be computed exactly, so the numbers are the rationals
    and the operations those of the field. *)
#[global] Instance ops : decimal.Ops Qc := {|
  decimal.add := Qcplus;
  decimal.mul := Qcmult;
  decimal.div := Qcdiv;
  decimal.lt a b := bool_decide (a < b)%Qc;
  decimal.neg := Qcopp;
  decimal.lit := ofZ;
|}.
End exact.

(** ** The reward rule in words

    Reputation [+1] for the first entry that bears a fortune, [-1] for an
    entry whose fortune was borne by an earlier entry; the retained entries
    are the first occurrences.  [earlier] holds the fortunes met so far. *)
Module rewardRule.
Import rewards.

Fixpoint reputationsFrom (earlier : list string) (entries : list FortuneEntry)
  : list ReputationEntry :=
  match entries with
  | [] => []
  | entry :: rest =>
      {| workerAddress := worker entry;
         reputation := if bool_decide (fortune entry ∈ earlier) then -1 else 1 |}
      :: reputationsFrom (earlier ++ [fortune entry]) rest
  end.

Fixpoint firstOccurrencesFrom (earlier : list string)
    (entries : list FortuneEntry) : list FortuneEntry :=
  match entries with
  | [] => []
  | entry :: rest =>
      (if bool_decide (fortune entry ∈ earlier) then [] else [entry])
      ++ firstOccurrencesFrom (earlier ++ [fortune entry]) rest
  end.

Definition expected (web3 : Web3) (entries : list FortuneEntry) : Rewards :=
  {| workerAddresses :=
       map (toChecksumAddress web3)
           (map worker (firstOccurrencesFrom [] entries));
     reputationValues := reputationsFrom [] entries |}.

(** The own properties of [tmpHashMap] answer for the fortunes met so far,
    on every key that is not a property of the prototype. *)
Definition tracks (own : gmap string bool) (earlier : list string) : Prop :=
  forall key, key ∉ objectPrototype ->
    truthyAt own key = bool_decide (key ∈ earlier).
End rewardRule.

(** * Sample collaborators, states and requests *)
Module sample.
Definition q (z : Z) : Qc := exact.ofZ z.

(** A manifest validator: the fortune class asks for [fundAmount], the
    annotation class for a non-empty [annotation.labels]. *)
Definition manifestValidator (class : ManifestClass)
    (manifest : Manifest.t Qc) : list ValidationError :=
  match class with
  | FortuneManifestDto =>
      match Manifest.fundAmount manifest with
      | Some _ => []
      | None => ["fundAmount"]
      end
  | CvatManifestDto =>
      match Manifest.annotation manifest with
      | Some annotation =>
          match CvatAnnotation.labels annotation with
          | Some (_ :: _) => []
          | _ => ["annotation.labels"]
          end
      | None => ["annotation"]
      end
  end.

(** A result validator over documents given by their kind. *)
Definition resultValidator (class : ResultClass) (result : string)
  : list ValidationError :=
  match class with
  | FortuneFinalResultDto =>
      if String.eqb result "fortune result" then [] else ["solution"]
  | CvatFinalResultDto =>
      if String.eqb result "annotation result" then [] else ["final_answer"]
  end.

(** Chain [80001] is the one supported chain; the fee is 10 percent and the
    rate 2 tokens for a dollar. *)
Definition env (balance : Qc) (rejects : option RepositoryError)
    (manifest : option (Manifest.t Qc)) (acknowledged : bool)
    (result : option string) : Env Qc string :=
  {| web3Service_validateChainId c :=
       if bool_decide (c = 80001) then None
       else Some (BadRequestException ErrorWeb3_InvalidChainId);
     NETWORKS_hmtAddress _ := "0xHMT";
     paymentService_getUserBalance _ _ := balance;
     getRate _ _ := q 2;
     JOB_LAUNCHER_FEE := q 10;
     CVAT_JOB_SIZE := q 10;
     CVAT_MAX_TIME := q 300;
     CVAT_VAL_SIZE := q 2;
     RECORDING_ORACLE_ADDRESS := "0xRECORDING";
     REPUTATION_ORACLE_ADDRESS := "0xREPUTATION";
     RECORDING_ORACLE_FEE := 1;
     REPUTATION_ORACLE_FEE := 1;
     EXCHANGE_ORACLE_WEBHOOK_URL := "http://exchange/webhook";
     ErrorPostgres_NumericFieldOverflow := "Numeric field overflow";
     storageClient_uploadFiles _ :=
       Some (UploadFile.mk "http://bucket/manifest.json" "hash");
     downloadManifest _ := manifest;
     downloadResult _ := result;
     routingProtocolService_selectNetwork _ := 80001;
     now := 0;
     jobRepository_creates _ := true;
     paymentRepository_rejects _ := rejects;
     escrowClient_createAndSetupEscrow _ _ _ _ := Some "0xESCROW";
     escrowClient_getResultsUrl _ _ := Some "http://bucket/result.json";
     httpService_post _ _ := acknowledged;
     validateManifestDto := manifestValidator;
     validateResultDto := resultValidator |}.

Definition st0 : State Qc :=
  {| jobs := ∅; jobSeq := 1; payments := []; routingCalls := 0; trace := [] |}.

Definition dto (chainId : option Z) (fundAmount : Z) : JobDto.t Qc :=
  JobDto.mk chainId (q fundAmount) None None None None None None.

Definition cvatDto : JobDto.t Qc :=
  JobDto.mk (Some 80001) (q 50) (Some "boxes around cats")
            (Some "http://bucket/images") (Some ["cat"]) (Some (q 1))
            (Some "http://bucket/gt.json") (Some "1").

(** The row [createJob] leaves for user 1 after a request of 50. *)
Definition paidJob : JobEntity.t Qc :=
  JobEntity.mk 1 80001 1 "http://bucket/manifest.json" "hash"
               (q 10) (q 100) PAID 0 None.

Definition launchedJob : JobEntity.t Qc :=
  JobEntity.set_status LAUNCHED
    (JobEntity.set_escrowAddress (Some "0xESCROW") paidJob).

Definition stWith (job : JobEntity.t Qc) : State Qc :=
  {| jobs := {[ JobEntity.id job := job ]}; jobSeq := 2; payments := [];
     routingCalls := 0; trace := [] |}.

(** An annotation manifest as [createJob] builds it, and one without
    labels. *)
Definition cvatManifestOk : Manifest.t Qc :=
  cvatManifest (env (q 100) None None true None) cvatDto IMAGE_BOXES ["cat"].

Definition cvatManifestNoLabels : Manifest.t Qc :=
  Manifest.mk None None None
    (Some (CvatData.mk (Some "http://bucket/images")))
    (Some (CvatAnnotation.mk None (Some "boxes around cats")
                             (Some IMAGE_BOXES) (Some (q 10)) (Some (q 300))))
    None None.

Definition overflow : RepositoryError :=
  {| isQueryFailedError := true;
     message := "numeric field overflow: precision 5, scale 2" |}.

Definition timeout : RepositoryError :=
  {| isQueryFailedError := false; message := "connection timed out" |}.

Definition web3 : rewards.Web3 :=
  {| rewards.toChecksumAddress address := address |}.
End sample.

(** The chain of the row [createJob] creates for [dto]:
    [chainId ?? this.routingProtocolService.selectNetwork()]. *)
Definition createJob_chainId {num ResultDoc} (env : Env num ResultDoc)
    (dto : JobDto.t num) (st : State num) : Z :=
  match JobDto.chainId dto with
  | Some c => c
  | None => routingProtocolService_selectNetwork env (routingCalls st)
  end.

(** The payment [createJob] creates for a request of [fundAmount]. *)
Definition createJob_payment {num ResultDoc} `{!decimal.Ops num}
    (env : Env num ResultDoc) (userId : Z) (fundAmount : num)
  : PaymentEntity.t num :=
  PaymentEntity.mk userId BALANCE WITHDRAWAL
    (decimal.neg (createJob_tokenTotalAmount env fundAmount
                                             (getRate env USD HMT)))
    HMT (decimal.div (decimal.lit 1) (getRate env USD HMT)) SUCCEEDED.

(** The [escrowConfig] of [launchJob]. *)
Definition launchJob_escrowConfig {num ResultDoc} (env : Env num ResultDoc)
    (jobEntity : JobEntity.t num) : EscrowConfig.t :=
  EscrowConfig.mk (RECORDING_ORACLE_ADDRESS env)
                  (REPUTATION_ORACLE_ADDRESS env)
                  (RECORDING_ORACLE_FEE env)
                  (REPUTATION_ORACLE_FEE env)
                  (JobEntity.manifestUrl jobEntity)
                  (JobEntity.manifestHash jobEntity).

(** Token transfers among the calls. *)
Definition isTransfer {num} (ev : Event num) : bool :=
  match ev with
  | EvTransfer _ _ _ => true
  | _ => false
  end.

(** A reputation entry with [+1]. *)
Definition plusOne (r : rewards.ReputationEntry) : bool :=
  rewards.reputation r =? 1.

(** * The reputation contract: [Reputation.sol]

    [addReputations], [getReputations], the constructor and
    [setMinimumStake].  A call that reverts is [None], and leaves the
    storage as it was. *)
Module Reputation.
Definition address := Z.

Record Worker := { workerAddress : address; reputation : Z }.

Definition MIN_REPUTATION : Z := 1.
Definition MAX_REPUTATION : Z := 100.

(** What the contract calls and does not define: [add] of
    [SignedSafeMath], and [tokensAvailable()] of the staker that
    [IStaking(staking).getStaker] gives for an address. *)
Record Libraries := {
  add : Z -> Z -> option Z;
  tokensAvailable : address -> address -> option Z;
}.

Record Storage := {
  owner : address;
  staking : address;
  minimumStake : Z;
  reputations : gmap address Z;
}.

(** [reputations[a]]: a mapping reads 0 where nothing was written. *)
Definition reputationOf (m : gmap address Z) (a : address) : Z :=
  match m !! a with
  | Some v => v
  | None => 0
  end.

(** [_setMinimumStake]. *)
Definition _setMinimumStake (_minimumStake : Z) (s : Storage)
  : option Storage :=
  if 0 <? _minimumStake then
    Some {| owner := owner s; staking := staking s;
            minimumStake := _minimumStake; reputations := reputations s |}
  else None.

(** The constructor, run by [sender]. *)
Definition constructor (sender _staking : address) (_minimumStake : Z)
  : option Storage :=
  if _staking =? 0 then None
  else _setMinimumStake _minimumStake
         {| owner := sender; staking := _staking; minimumStake := 0;
            reputations := ∅ |}.

(** [setMinimumStake], with [onlyOwner]. *)
Definition setMinimumStake (sender : address) (_minimumStake : Z)
    (s : Storage) : option Storage :=
  if sender =? owner s then _setMinimumStake _minimumStake s else None.

(** The body of the loop of [addReputations] for [_workers[i]].  The
    operands of [||] and [&&] are evaluated from the left and only as far
    as needed, so that [add] is called, and may revert, as in the
    contract. *)
Definition rate (L : Libraries) (m : gmap address Z) (w : Worker)
  : option (gmap address Z) :=
  let a := workerAddress w in
  let current := reputationOf m a in
  sum ← add L current (reputation w);
  above ←
    (if MAX_REPUTATION <? sum then Some true
     else if current =? 0 then
       fresh ← add L (reputation w) 50; Some (MAX_REPUTATION <? fresh)
     else Some false);
  if (above : bool) then Some (<[a := MAX_REPUTATION]> m)
  else
    below ←
      (first ←
         (if current =? 0 then
            fresh ← add L (reputation w) 50; Some (fresh <? MIN_REPUTATION)
          else Some false);
       if (first : bool) then Some true
       else
         sum' ← add L current (reputation w);
         Some ((sum' <? MIN_REPUTATION) && negb (current =? 0)));
    if (below : bool) then Some (<[a := MIN_REPUTATION]> m)
    else if current =? 0 then
      fresh ← add L (reputation w) 50; Some (<[a := fresh]> m)
    else
      sum' ← add L current (reputation w); Some (<[a := sum']> m).

(** The loop over [_workers]. *)
Fixpoint rateAll (L : Libraries) (m : gmap address Z) (workers : list Worker)
  : option (gmap address Z) :=
  match workers with
  | [] => Some m
  | w :: rest => m' ← rate L m w; rateAll L m' rest
  end.

Definition addReputations (L : Libraries) (sender : address)
    (_workers : list Worker) (s : Storage) : option Storage :=
  available ← tokensAvailable L (staking s) sender;
  if minimumStake s <? available then
    m ← rateAll L (reputations s) _workers;
    Some {| owner := owner s; staking := staking s;
            minimumStake := minimumStake s; reputations := m |}
  else None.

Definition getReputations (_workers : list address) (s : Storage)
  : list Worker :=
  map (fun a => {| workerAddress := a;
                   reputation := reputationOf (reputations s) a |})
      _workers.

(** The value between the two bounds that is nearest to [z]. *)
Definition clamp (z : Z) : Z :=
  Z.max MIN_REPUTATION (Z.min MAX_REPUTATION z).

(** What a rating is counted from: 50 for an address without reputation. *)
Definition base (m : gmap address Z) (a : address) : Z :=
  if reputationOf m a =? 0 then 50 else reputationOf m a.

(** The loop in one line: each worker in turn gets its base plus the given
    reputation, clamped. *)
Definition rated (m : gmap address Z) (workers : list Worker)
  : gmap address Z :=
  fold_left
    (fun m w =>
       <[workerAddress w := clamp (base m (workerAddress w) + reputation w)]> m)
    workers m.

(** Values far from the ends of [int256]. *)
Definition small (z : Z) : Prop := - 2 ^ 254 < z < 2 ^ 254.

(** An [add] that gives the sum wherever the sum is an [int256]. *)
Definition addsInRange (L : Libraries) : Prop :=
  forall a b, - 2 ^ 255 <= a + b < 2 ^ 255 -> add L a b = Some (a + b).

(** The storages that the constructor and the calls that do not revert
    lead to. *)
Inductive reachable (L : Libraries) : Storage -> Prop :=
| reachable_constructor sender _staking _minimumStake s :
    constructor sender _staking _minimumStake = Some s -> reachable L s
| reachable_addReputations sender _workers s s' :
    reachable L s -> addReputations L sender _workers s = Some s' ->
    reachable L s'
| reachable_setMinimumStake sender _minimumStake s s' :
    reachable L s -> setMinimumStake sender _minimumStake s = Some s' ->
    reachable L s'.
End Reputation.

(** * The user service: [registerAddress] *)
Module UserService.
(** [KycStatus]: the member the service names, and the others. *)
Inductive KycStatus := APPROVED | OtherStatus (name : string).

#[global] Instance KycStatus_eq_dec : EqDecision KycStatus.
Proof. solve_decision. Defined.

Record KycEntity := { status : KycStatus }.

Record UserEntity := {
  evmAddress : option string;
  kyc : option KycEntity;
}.

Record RegisterAddressRequestDto := { chainId : Z; address : string }.

Inductive ErrorUser := IncorrectAddress | KycNotApproved.

Inductive Exception := BadRequestException (m : ErrorUser).

(** What [registerAddress] comes to: the user as it is afterwards, whether
    [user.save()] was called, and the signature or the exception. *)
Record Result := {
  user : UserEntity;
  saved : bool;
  outcome : Exception + string;
}.

(** [signMessage chainId address] stands for
    [web3Service.getSigner(chainId).signMessage(address)]. *)
Definition registerAddress (signMessage : Z -> string -> string)
    (user : UserEntity) (data : RegisterAddressRequestDto) : Result :=
  if truthyStr (evmAddress user)
     && negb (bool_decide (evmAddress user = Some (address data)))
  then {| user := user; saved := false;
          outcome := inl (BadRequestException IncorrectAddress) |}
  else if negb (bool_decide (status <$> kyc user = Some APPROVED))
  then {| user := user; saved := false;
          outcome := inl (BadRequestException KycNotApproved) |}
  else
    {| user := {| evmAddress := Some (address data); kyc := kyc user |};
       saved := true;
       outcome := inr (signMessage (chainId data) (address data)) |}.
End UserService.

(** * More samples *)
Module sampleMore.
(** [base] with other answers of the storage client, the job repository
    and the escrow client. *)
Definition envWith (upload : option UploadFile.t) (creates : bool)
    (escrow resultsUrl : option string) (base : Env Qc string)
  : Env Qc string :=
  {| web3Service_validateChainId := web3Service_validateChainId base;
     NETWORKS_hmtAddress := NETWORKS_hmtAddress base;
     paymentService_getUserBalance := paymentService_getUserBalance base;
     getRate := getRate base;
     JOB_LAUNCHER_FEE := JOB_LAUNCHER_FEE base;
     CVAT_JOB_SIZE := CVAT_JOB_SIZE base;
     CVAT_MAX_TIME := CVAT_MAX_TIME base;
     CVAT_VAL_SIZE := CVAT_VAL_SIZE base;
     RECORDING_ORACLE_ADDRESS := RECORDING_ORACLE_ADDRESS base;
     REPUTATION_ORACLE_ADDRESS := REPUTATION_ORACLE_ADDRESS base;
     RECORDING_ORACLE_FEE := RECORDING_ORACLE_FEE base;
     REPUTATION_ORACLE_FEE := REPUTATION_ORACLE_FEE base;
     EXCHANGE_ORACLE_WEBHOOK_URL := EXCHANGE_ORACLE_WEBHOOK_URL base;
     ErrorPostgres_NumericFieldOverflow :=
       ErrorPostgres_NumericFieldOverflow base;
     storageClient_uploadFiles _ := upload;
     downloadManifest := downloadManifest base;
     downloadResult := downloadResult base;
     routingProtocolService_selectNetwork :=
       routingProtocolService_selectNetwork base;
     now := now base;
     jobRepository_creates _ := creates;
     paymentRepository_rejects := paymentRepository_rejects base;
     escrowClient_createAndSetupEscrow _ _ _ _ := escrow;
     escrowClient_getResultsUrl _ _ := resultsUrl;
     httpService_post := httpService_post base;
     validateManifestDto := validateManifestDto base;
     validateResultDto := validateResultDto base |}.

Definition file : UploadFile.t :=
  UploadFile.mk "http://bucket/manifest.json" "hash".

(** The collaborators of the samples, with a balance of 100. *)
Definition env0 : Env Qc string :=
  sample.env (sample.q 100) None None true None.

(** The fortune manifest of the request of 50. *)
Definition fortuneManifestOk : Manifest.t Qc :=
  fortuneManifest (sample.dto (Some 80001) 50) FORTUNE (sample.q 100).

Definition entries : list rewards.FortuneEntry :=
  [ {| rewards.worker := "0xA"; rewards.fortune := "luck" |};
    {| rewards.worker := "0xB"; rewards.fortune := "joy" |};
    {| rewards.worker := "0xC"; rewards.fortune := "luck" |} ].

(** An [add] that reverts outside [int256], and a staker with 10 tokens. *)
Definition libraries : Reputation.Libraries :=
  {| Reputation.add a b :=
       if (- 2 ^ 255 <=? a + b) && (a + b <? 2 ^ 255)
       then Some (a + b) else None;
     Reputation.tokensAvailable _ _ := Some 10 |}.

Definition storage : Reputation.Storage :=
  {| Reputation.owner := 7; Reputation.staking := 9;
     Reputation.minimumStake := 1;
     Reputation.reputations := {[ 1 := 100; 2 := 1 ]} |}.

Definition workers : list Reputation.Worker :=
  [ {| Reputation.workerAddress := 1; Reputation.reputation := 1 |};
    {| Reputation.workerAddress := 2; Reputation.reputation := -1 |};
    {| Reputation.workerAddress := 3; Reputation.reputation := 1 |};
    {| Reputation.workerAddress := 3; Reputation.reputation := -1 |} ].

Definition approvedUser : UserService.UserEntity :=
  {| UserService.evmAddress := None;
     UserService.kyc := Some {| UserService.status := UserService.APPROVED |} |}.

Definition sign (chainId : Z) (address : string) : string :=
  String.append "signed:" address.
End sampleMore.

(** A row with this id, this owner and status [LAUNCHED]: what
    [jobRepository.findOne({ id, userId, status })] looks for. *)
Definition launchedJobOf {num} (st : State num) (userId jobId : Z)
    (job : JobEntity.t num) : Prop :=
  jobs st !! jobId = Some job /\
  JobEntity.userId job = userId /\
  JobEntity.status job = LAUNCHED.

(** * Properties of the job service *)

(** Calls that write to the database or to the object store. *)
Definition isPersistence {num} (ev : Event num) : bool :=
  match ev with
  | EvUploadFiles _ | EvJobCreate _ | EvPaymentCreate _ _ | EvJobSave _ => true
  | _ => false
  end.

(** Unfolds a method down to the state it returns. *)
Ltac run_service :=
  unfold createJob, launchJob, getResult, validateManifest, getManifest,
    sendWebhook, saveManifest, validateChainId, getUserBalance, selectNetwork,
    jobRepository_create, jobRepository_findOne, paymentRepository_create,
    save, tryCatch, when, bind, ret, throw, emit in *;
  cbn [fst snd jobs jobSeq payments routingCalls trace] in *.

(** Puts a trace [((t ++ [a]) ++ [b]) ++ ...] in the form [t ++ [a; b; ...]]. *)
Ltac flat_trace :=
  repeat rewrite <- app_assoc in *; cbn [app] in *.

(** Case analysis on the innermost scrutinee first, so that the branches
    are met in the order the method runs them. *)
Ltac inner_destruct :=
  match goal with
  | |- context [match ?x with _ => _ end] =>
      lazymatch x with
      | context [match _ with _ => _ end] => fail
      | _ => destruct x eqn:?
      end
  end.

Ltac run_paths :=
  run_service;
  repeat (inner_destruct;
          cbn [fst snd jobs jobSeq payments routingCalls trace negb truthyZ]
            in * );
  flat_trace.

(** Membership in, and lookup into, an explicit list of events. *)
Ltac in_events H :=
  cbn [In] in H;
  repeat (destruct H as [H|H]; [try discriminate H|]);
  try contradiction;
  simplify_eq.

Ltac at_index i H :=
  try discriminate H;
  repeat (destruct i as [|i]; cbn in H; try discriminate H).

Section CreateJob.
Context {num : Type} `{!decimal.Ops num} {ResultDoc : Type}.
Variable env : Env num ResultDoc.

(** C1, as amended: when the balance of the user is below
    [fundAmount + fee], [createJob] throws, and neither a payment nor a job
    row nor a manifest is written; the exception is [BadRequest
    NotEnoughFunds] whenever the chain id check, which runs first, does not
    throw. *)
Theorem createJob_NotEnoughFunds userId requestType dto st :
  decimal.lt (paymentService_getUserBalance env (payments st) userId)
             (createJob_usdTotalAmount env (JobDto.fundAmount dto)) = true ->
  let r := fst (createJob env userId requestType dto st) in
  let st' := snd (createJob env userId requestType dto st) in
  jobs st' = jobs st /\ payments st' = payments st /\
  (exists evs, trace st' = trace st ++ evs /\
               forall ev, In ev evs -> isPersistence ev = false) /\
  (exists e, r = Thrown e) /\
  ((forall c, JobDto.chainId dto = Some c -> c <> 0 ->
              web3Service_validateChainId env c = None) ->
   r = Thrown (BadRequestException ErrorJob_NotEnoughFunds)).
Proof.
  intros Hlt. run_service.
  destruct (JobDto.chainId dto) as [c|] eqn:Hc; cbn [truthyZ].
  - destruct (Z.eqb_spec c 0) as [->|Hne]; cbn [negb].
    + rewrite Hlt. cbn. flat_trace. repeat split; eauto.
      eexists; split; [reflexivity|].
      cbn. intros ev Hev. intuition (subst; reflexivity).
    + destruct (web3Service_validateChainId env c) as [e|] eqn:Hv.
      * cbn. repeat split; eauto.
        -- eexists; split; [reflexivity|].
           cbn. intros ev Hev. intuition (subst; reflexivity).
        -- intros Hok. rewrite (Hok c eq_refl Hne) in Hv. discriminate.
      * cbn. rewrite Hlt. cbn. flat_trace. repeat split; eauto.
        eexists; split; [reflexivity|].
        cbn. intros ev Hev. intuition (subst; reflexivity).
  - rewrite Hlt. cbn. flat_trace. repeat split; eauto.
    eexists; split; [reflexivity|].
    cbn. intros ev Hev. intuition (subst; reflexivity).
Qed.

(** C2: every row [createJob] creates is created [PENDING]; a row is saved
    as [PAID] only after that row was created and after a withdrawal
    payment of the same user, of amount [-tokenTotalAmount], was created
    without error; in the table, a row written by the call is [PENDING], or
    [PAID] with that payment appended to the payments. *)
Theorem createJob_PENDING_before_PAID userId requestType dto st :
  let st' := snd (createJob env userId requestType dto st) in
  let tokenTotalAmount :=
    createJob_tokenTotalAmount env (JobDto.fundAmount dto)
                               (getRate env USD HMT) in
  let debit (p : PaymentEntity.t num) :=
    PaymentEntity.userId p = userId /\
    PaymentEntity.type p = WITHDRAWAL /\
    PaymentEntity.amount p = decimal.neg tokenTotalAmount in
  exists evs, trace st' = trace st ++ evs /\
    (forall j, In (EvJobCreate (Some j)) evs -> JobEntity.status j = PENDING) /\
    (forall i j, evs !! i = Some (EvJobSave j) -> JobEntity.status j = PAID ->
       exists k l row p, (k < l < i)%nat /\
         evs !! k = Some (EvJobCreate (Some row)) /\
         JobEntity.id row = JobEntity.id j /\
         evs !! l = Some (EvPaymentCreate p None) /\ debit p) /\
    (forall id j, jobs st' !! id = Some j -> jobs st !! id <> Some j ->
       JobEntity.status j = PENDING \/
       (JobEntity.status j = PAID /\
        exists p, payments st' = payments st ++ [p] /\ debit p)).
Proof.
  run_paths.
  all: eexists; split; [reflexivity|].
  all: split; [intros j Hj; in_events Hj; reflexivity|].
  all: split;
    [ intros i j Hi Hs; at_index i Hi; simplify_eq;
      match goal with
      | |- exists k l _ _, (k < l < ?n)%nat /\ _ =>
          exists (n - 2)%nat, (n - 1)%nat
      end;
      do 2 eexists; cbn; repeat split; try reflexivity; lia
    | ].
  all: intros id j Hl Hn; cbn in Hl.
  all: repeat (rewrite lookup_insert in Hl; case_decide; simplify_eq).
  all: try contradiction; cbn; eauto 10.
Qed.

(** C3: when the creation of the payment is rejected, [createJob] throws
    [Conflict IncorrectAmount] if the error is a [QueryFailedError] whose
    message includes the lower-cased numeric field overflow constant, and
    [Conflict NotSuccess] otherwise; no payment is recorded, the job is not
    saved again, and the row created before stays in the table, [PENDING]. *)
Theorem createJob_payment_rejected userId requestType dto st evs p err :
  let r := fst (createJob env userId requestType dto st) in
  let st' := snd (createJob env userId requestType dto st) in
  trace st' = trace st ++ evs ->
  In (EvPaymentCreate p (Some err)) evs ->
  r = Thrown (ConflictException
                (if isQueryFailedError err
                    && includes
                         (toLowerCase (ErrorPostgres_NumericFieldOverflow env))
                         (message err)
                 then ErrorPayment_IncorrectAmount
                 else ErrorPayment_NotSuccess)) /\
  payments st' = payments st /\
  (forall j, ~ In (EvJobSave j) evs) /\
  exists row,
    In (EvJobCreate (Some row)) evs /\
    JobEntity.status row = PENDING /\
    jobs st' = <[JobEntity.id row := row]> (jobs st) /\
    jobs st' !! JobEntity.id row = Some row.
Proof.
  cbv zeta. run_paths.
  all: intros Htr Hin; apply app_inv_head in Htr; subst evs.
  all: in_events Hin.
  all: cbn [isNumericFieldOverflow] in *; try congruence.
  all: split; [reflexivity|]; split; [reflexivity|].
  all: split; [intros j Hj; in_events Hj|].
  all: eexists; split; [cbn [In]; eauto 10|].
  all: cbn; split; [reflexivity|]; split; [reflexivity|].
  all: apply lookup_insert_eq.
Qed.

(** C9: a chain id is validated only if it is supplied and is not 0, and
    the network selector is called only if no chain id is supplied; so with
    chain id 0 neither happens, and the rows written, the returned one
    included, carry chain id 0. *)
Theorem createJob_chainId_guards userId requestType dto st :
  let r := fst (createJob env userId requestType dto st) in
  let st' := snd (createJob env userId requestType dto st) in
  exists evs, trace st' = trace st ++ evs /\
    (forall c, In (EvValidateChainId c) evs ->
               JobDto.chainId dto = Some c /\ c <> 0) /\
    (In EvSelectNetwork evs \/ routingCalls st' <> routingCalls st ->
     JobDto.chainId dto = None) /\
    (JobDto.chainId dto = Some 0 ->
     (forall j, In (EvJobCreate (Some j)) evs \/ In (EvJobSave j) evs ->
                JobEntity.chainId j = 0) /\
     (forall id, r = Returned id ->
                 exists j, jobs st' !! id = Some j /\
                           JobEntity.chainId j = 0)).
Proof.
  cbv zeta. run_paths.
  all: eexists; split; [reflexivity|].
  all: split; [intros c Hc; in_events Hc;
               try (split; [reflexivity|intros ->; discriminate])|].
  all: split; [intros [Hs|Hs]; [in_events Hs|try contradiction];
               try reflexivity|].
  all: intros Hz; simplify_eq.
  all: split; [intros j [Hj|Hj]; in_events Hj; try reflexivity|].
  all: intros id Hid; simplify_eq.
  all: cbn; eexists; split; [apply lookup_insert_eq|reflexivity].
Qed.

(** The amounts on every row [createJob] writes. *)
Lemma createJob_row_amounts userId requestType dto st :
  let st' := snd (createJob env userId requestType dto st) in
  let rate := getRate env USD HMT in
  exists evs, trace st' = trace st ++ evs /\
    (forall j, In (EvJobCreate (Some j)) evs \/ In (EvJobSave j) evs ->
       JobEntity.fee j = createJob_tokenFee env (JobDto.fundAmount dto) rate /\
       JobEntity.fundAmount j =
         createJob_tokenFundAmount (JobDto.fundAmount dto) rate) /\
    (forall p, In (EvPaymentCreate p None) evs ->
       PaymentEntity.amount p =
         decimal.neg (createJob_tokenTotalAmount env (JobDto.fundAmount dto) rate)) /\
    (forall id j, jobs st' !! id = Some j -> jobs st !! id <> Some j ->
       JobEntity.fee j = createJob_tokenFee env (JobDto.fundAmount dto) rate /\
       JobEntity.fundAmount j =
         createJob_tokenFundAmount (JobDto.fundAmount dto) rate).
Proof.
  cbv zeta. run_paths.
  all: eexists; split; [reflexivity|].
  all: split; [intros j [Hj|Hj]; in_events Hj; try (split; reflexivity)|].
  all: split; [intros p Hp; in_events Hp; try reflexivity|].
  all: intros id j Hl Hn; cbn in Hl.
  all: repeat (rewrite lookup_insert in Hl; case_decide; simplify_eq).
  all: try contradiction; cbn; eauto.
Qed.
End CreateJob.

Section LaunchJob.
Context {num : Type} `{!decimal.Ops num} {ResultDoc : Type}.
Variable env : Env num ResultDoc.

(** C4: when the escrow client returns a non-empty address and the stored
    manifest passes validation, [launchJob] leaves the row [LAUNCHED] with
    that escrow address, whatever its status was ([PAID] included).  The
    webhook is posted exactly when the manifest has an annotation type,
    with [{escrowAddress, chainId}], and after the row was saved; if it is
    not acknowledged the call throws [WebhookWasNotSent] and the row stays
    [LAUNCHED]. *)
Theorem launchJob_LAUNCHED jobEntity st escrowAddress manifest :
  let chainId := JobEntity.chainId jobEntity in
  let escrowConfig :=
    EscrowConfig.mk (RECORDING_ORACLE_ADDRESS env)
                    (REPUTATION_ORACLE_ADDRESS env)
                    (RECORDING_ORACLE_FEE env) (REPUTATION_ORACLE_FEE env)
                    (JobEntity.manifestUrl jobEntity)
                    (JobEntity.manifestHash jobEntity) in
  let url := EXCHANGE_ORACLE_WEBHOOK_URL env in
  let body := SendWebhookDto.mk (Some escrowAddress) chainId in
  let launched :=
    JobEntity.set_status LAUNCHED
      (JobEntity.set_escrowAddress (Some escrowAddress) jobEntity) in
  escrowClient_createAndSetupEscrow env chainId
    (NETWORKS_hmtAddress env chainId) [] escrowConfig = Some escrowAddress ->
  escrowAddress <> "" ->
  downloadManifest env (JobEntity.manifestUrl jobEntity) = Some manifest ->
  validateManifestDto env
    (if bool_decide (Manifest.requestType manifest = Some FORTUNE)
     then FortuneManifestDto else CvatManifestDto) manifest = [] ->
  let r := fst (launchJob env jobEntity st) in
  let st' := snd (launchJob env jobEntity st) in
  jobs st' !! JobEntity.id jobEntity = Some launched /\
  JobEntity.status launched = LAUNCHED /\
  JobEntity.escrowAddress launched = Some escrowAddress /\
  r = (if hasAnnotationType manifest && negb (httpService_post env url body)
       then Thrown (NotFoundException ErrorJob_WebhookWasNotSent)
       else Returned launched) /\
  exists evs, trace st' = trace st ++ evs /\
    (forall url' body', In (EvPost url' body') evs ->
       hasAnnotationType manifest = true /\ url' = url /\ body' = body) /\
    (hasAnnotationType manifest = true -> In (EvPost url body) evs) /\
    (forall i url' body', evs !! i = Some (EvPost url' body') ->
       exists k, (k < i)%nat /\ evs !! k = Some (EvJobSave launched)).
Proof.
  intros chainId escrowConfig url body launched Hesc Hne Hdl Hval.
  subst chainId escrowConfig url body launched.
  assert (Htruthy : truthyStr (Some escrowAddress) = true).
  { cbn. destruct (String.eqb_spec escrowAddress ""); [congruence|reflexivity]. }
  run_service. rewrite Hesc, Htruthy. cbn. rewrite Hdl. cbn.
  rewrite Hval. cbn.
  destruct (hasAnnotationType manifest); cbn;
    [destruct (httpService_post env _ _) eqn:Hpost; cbn|]; flat_trace.
  all: split; [apply lookup_insert_eq|].
  all: split; [reflexivity|]; split; [reflexivity|]; split; [reflexivity|].
  all: eexists; split; [reflexivity|].
  all: split; [intros u b Hin; in_events Hin; auto|].
  all: split; [first [discriminate|intros _; cbn; auto 10]|].
  all: intros i u b Hi; at_index i Hi.
  all: exists 3%nat; split; [lia|reflexivity].
Qed.

(** C5: when the manifest fetched again fails the validation of the class
    chosen by its request type ([FortuneManifestDto] for [FORTUNE],
    [CvatManifestDto] otherwise), [launchJob] throws
    [ManifestValidationFailed]; no token is transferred, no row is saved,
    no webhook is posted, and the table of jobs is unchanged. *)
Theorem launchJob_ManifestValidationFailed jobEntity st escrowAddress manifest :
  let chainId := JobEntity.chainId jobEntity in
  let escrowConfig :=
    EscrowConfig.mk (RECORDING_ORACLE_ADDRESS env)
                    (REPUTATION_ORACLE_ADDRESS env)
                    (RECORDING_ORACLE_FEE env) (REPUTATION_ORACLE_FEE env)
                    (JobEntity.manifestUrl jobEntity)
                    (JobEntity.manifestHash jobEntity) in
  escrowClient_createAndSetupEscrow env chainId
    (NETWORKS_hmtAddress env chainId) [] escrowConfig = Some escrowAddress ->
  escrowAddress <> "" ->
  downloadManifest env (JobEntity.manifestUrl jobEntity) = Some manifest ->
  validateManifestDto env
    (if bool_decide (Manifest.requestType manifest = Some FORTUNE)
     then FortuneManifestDto else CvatManifestDto) manifest <> [] ->
  let r := fst (launchJob env jobEntity st) in
  let st' := snd (launchJob env jobEntity st) in
  r = Thrown (NotFoundException ErrorJob_ManifestValidationFailed) /\
  jobs st' = jobs st /\
  exists evs, trace st' = trace st ++ evs /\
    forall ev, In ev evs ->
      match ev with
      | EvTransfer _ _ _ | EvJobSave _ | EvPost _ _ => False
      | _ => True
      end.
Proof.
  intros chainId escrowConfig Hesc Hne Hdl Hval.
  subst chainId escrowConfig.
  assert (Htruthy : truthyStr (Some escrowAddress) = true).
  { cbn. destruct (String.eqb_spec escrowAddress ""); [congruence|reflexivity]. }
  run_service. rewrite Hesc, Htruthy. cbn. rewrite Hdl. cbn.
  destruct (validateManifestDto env _ manifest) as [|e errs]; [congruence|].
  cbn. flat_trace. split; [reflexivity|]. split; [reflexivity|].
  eexists; split; [reflexivity|].
  intros ev Hin. cbn [In] in Hin.
  repeat (destruct Hin as [<-|Hin]; [exact I|]). contradiction.
Qed.
End LaunchJob.

Section GetResult.
Context {num : Type} `{!decimal.Ops num} {ResultDoc : Type}.
Variable env : Env num ResultDoc.

Lemma findOne_launched (st : State num) userId jobId :
  match fst (jobRepository_findOne jobId userId LAUNCHED st) with
  | Returned (Some job) => launchedJobOf st userId jobId job
  | Returned None => forall job, ~ launchedJobOf st userId jobId job
  | Thrown _ => False
  end.
Proof.
  unfold jobRepository_findOne, launchedJobOf. cbn.
  destruct (jobs st !! jobId) as [job|] eqn:Hjob.
  - destruct (bool_decide (JobEntity.userId job = userId)) eqn:Hu;
      destruct (bool_decide (JobEntity.status job = LAUNCHED)) eqn:Hs; cbn.
    + apply bool_decide_eq_true in Hu, Hs. auto.
    + apply bool_decide_eq_false in Hs. intros j (Hj & _ & Hl). congruence.
    + apply bool_decide_eq_false in Hu. intros j (Hj & Hl & _). congruence.
    + apply bool_decide_eq_false in Hu. intros j (Hj & Hl & _). congruence.
  - intros j (Hj & _). congruence.
Qed.

(** C6: [getResult] throws [NotFound] for a job that is not [LAUNCHED], for
    a job of another user and for an unknown id, having done nothing but
    log; it goes on only when a row with that id, that owner and status
    [LAUNCHED] exists. *)
Theorem getResult_NotFound userId jobId st :
  let r := fst (getResult env userId jobId st) in
  let st' := snd (getResult env userId jobId st) in
  let notFound := Thrown (NotFoundException ErrorJob_NotFound) in
  (forall job, jobs st !! jobId = Some job ->
               JobEntity.status job <> LAUNCHED -> r = notFound) /\
  (forall job, jobs st !! jobId = Some job ->
               JobEntity.userId job <> userId -> r = notFound) /\
  (jobs st !! jobId = None -> r = notFound) /\
  (r = notFound ->
   jobs st' = jobs st /\
   trace st' = trace st ++ [EvLog (LogMessage ErrorJob_NotFound)]) /\
  (r <> notFound -> exists job, launchedJobOf st userId jobId job).
Proof.
  cbv zeta.
  pose proof (findOne_launched st userId jobId) as Hfind.
  unfold getResult, bind.
  unfold jobRepository_findOne in *. cbn [fst snd] in *.
  destruct (match jobs st !! jobId with
            | Some job => _
            | None => None
            end) as [found|] eqn:Hf.
  - run_paths.
    all: repeat split; try discriminate; eauto.
    all: try (intros job Hj Hs; destruct Hfind as (Hj' & Hu' & Hs'); congruence).
    all: intros Hn; destruct Hfind as (Hj' & _); congruence.
  - run_service. repeat split; try reflexivity.
    + intros Hn. congruence.
Qed.

Lemma findOne_cases (st : State num) userId jobId :
  (exists job, launchedJobOf st userId jobId job /\
     jobRepository_findOne jobId userId LAUNCHED st = (Returned (Some job), st)) \/
  ((forall job, ~ launchedJobOf st userId jobId job) /\
     jobRepository_findOne jobId userId LAUNCHED st = (Returned None, st)).
Proof.
  pose proof (findOne_launched st userId jobId) as Hfind.
  unfold jobRepository_findOne in *. cbn [fst] in Hfind.
  destruct (match jobs st !! jobId with
            | Some job => _
            | None => None
            end) as [found|]; eauto.
Qed.

Lemma nonempty_length {A} (l : list A) :
  (0 <? length l)%nat = true <-> l <> [].
Proof. destruct l; cbn; split; congruence. Qed.

Lemma both_nonempty {A} (l1 l2 : list A) :
  (0 <? length l1)%nat && (0 <? length l2)%nat = true <->
  l1 <> [] /\ l2 <> [].
Proof. rewrite andb_true_iff, !nonempty_length. tauto. Qed.

(** C7: [getResult] throws [ResultValidationFailed] exactly when the
    downloaded result fails the validation of both result classes; a result
    that passes either is returned as it is; and the outcome depends on the
    collaborators only through the results url, the result and its
    validation, hence not on the manifest nor on its request type. *)
Theorem getResult_ResultValidationFailed userId jobId st :
  let r := fst (getResult env userId jobId st) in
  let bothFail result :=
    validateResultDto env FortuneFinalResultDto result <> [] /\
    validateResultDto env CvatFinalResultDto result <> [] in
  let downloaded result :=
    exists job url,
      launchedJobOf st userId jobId job /\
      escrowClient_getResultsUrl env (JobEntity.chainId job)
        (JobEntity.escrowAddress job) = Some url /\
      url <> "" /\
      downloadResult env url = Some result in
  (r = Thrown (NotFoundException ErrorJob_ResultValidationFailed) <->
   exists result, downloaded result /\ bothFail result) /\
  (forall result, downloaded result -> ~ bothFail result ->
                  r = Returned result) /\
  (forall env' : Env num ResultDoc,
     (forall c a, escrowClient_getResultsUrl env' c a =
                  escrowClient_getResultsUrl env c a) ->
     (forall u, downloadResult env' u = downloadResult env u) ->
     (forall c d, validateResultDto env' c d = validateResultDto env c d) ->
     getResult env' userId jobId st = getResult env userId jobId st).
Proof.
  cbv zeta.
  assert (Hsame : forall job job',
             launchedJobOf st userId jobId job ->
             launchedJobOf st userId jobId job' -> job' = job).
  { intros job job' (Hj & _) (Hj' & _). congruence. }
  split; [|split].
  - destruct (findOne_cases st userId jobId)
      as [(job & Hl & Hf)|(Hno & Hf)]; unfold getResult, bind; rewrite Hf.
    + run_service.
      destruct (escrowClient_getResultsUrl env _ _) as [url|] eqn:Hurl;
        cbn [truthyStr negb].
      * destruct (String.eqb_spec url "") as [->|Hne]; cbn [negb fst].
        -- split; [discriminate|].
           intros (result & (job' & url' & Hl' & Hu' & Hne' & _) & _).
           rewrite (Hsame _ _ Hl Hl') in Hu'. congruence.
        -- destruct (downloadResult env url) as [result|] eqn:Hdl; cbn [fst].
           ++ destruct (_ && _) eqn:Hb;
                cbn [fst].
              ** apply both_nonempty in Hb.
                 split; [intros _|reflexivity].
                 exists result. split; [|exact Hb]. exists job, url. auto.
              ** split; [discriminate|].
                 intros (result' & (job' & url' & Hl' & Hu' & _ & Hd') & Hb').
                 rewrite (Hsame _ _ Hl Hl') in Hu'.
                 assert (url' = url) by congruence. subst url'.
                 assert (result' = result) by congruence. subst result'.
                 apply both_nonempty in Hb'. congruence.
           ++ split; [discriminate|].
              intros (result' & (job' & url' & Hl' & Hu' & _ & Hd') & _).
              rewrite (Hsame _ _ Hl Hl') in Hu'. congruence.
      * cbn [fst]. split; [discriminate|].
        intros (result & (job' & url' & Hl' & Hu' & _) & _).
        rewrite (Hsame _ _ Hl Hl') in Hu'. congruence.
    + run_service. split; [discriminate|].
      intros (result & (job & url & Hl & _) & _). destruct (Hno _ Hl).
  - intros result (job & url & Hl & Hu & Hne & Hd) Hnb.
    destruct (findOne_cases st userId jobId)
      as [(job' & Hl' & Hf)|(Hno & Hf)]; [|destruct (Hno _ Hl)].
    rewrite (Hsame _ _ Hl Hl') in Hf.
    unfold getResult, bind; rewrite Hf. run_service.
    rewrite Hu. cbn [truthyStr negb].
    destruct (String.eqb_spec url "") as [->|_]; [congruence|].
    cbn [negb]. rewrite Hd.
    destruct (_ && _) eqn:Hb;
      [|reflexivity].
    apply both_nonempty in Hb. contradiction.
  - intros env' Hu Hd Hv.
    destruct (findOne_cases st userId jobId)
      as [(job & Hl & Hf)|(Hno & Hf)]; unfold getResult, bind; rewrite Hf.
    + run_service. rewrite Hu.
      destruct (negb (truthyStr _)); [reflexivity|].
      rewrite Hd. destruct (downloadResult env _); [|reflexivity].
      rewrite !Hv. reflexivity.
    + reflexivity.
Qed.
End GetResult.

Section ExactAmounts.
Context {ResultDoc : Type}.
Variable env : Env Qc ResultDoc.

(** C8: with a positive fund amount and a non-negative fee percentage, the
    fee of [createJob] is [fundAmount * feePercentage / 100] and the total
    is [fundAmount + fee], exactly; every row that [createJob] writes
    carries these two amounts multiplied by the fetched rate. *)
Theorem createJob_exact_amounts userId requestType dto st :
  let fundAmount := JobDto.fundAmount dto in
  let feePercentage := JOB_LAUNCHER_FEE env in
  let rate := getRate env USD HMT in
  let fee := (fundAmount * feePercentage / exact.ofZ 100)%Qc in
  let usdTotal := (fundAmount + fee)%Qc in
  let st' := snd (createJob env userId requestType dto st) in
  (0 < fundAmount)%Qc -> (0 <= feePercentage)%Qc ->
  createJob_fee env fundAmount = fee /\
  createJob_usdTotalAmount env fundAmount = usdTotal /\
  exists evs, trace st' = trace st ++ evs /\
    (forall j, In (EvJobCreate (Some j)) evs \/ In (EvJobSave j) evs ->
       JobEntity.fee j = (fee * rate)%Qc /\
       JobEntity.fundAmount j = (fundAmount * rate)%Qc) /\
    (forall id j, jobs st' !! id = Some j -> jobs st !! id <> Some j ->
       JobEntity.fee j = (fee * rate)%Qc /\
       JobEntity.fundAmount j = (fundAmount * rate)%Qc).
Proof.
  intros fundAmount feePercentage rate fee usdTotal st' _ _.
  assert (Hfee : createJob_fee env fundAmount = fee).
  { unfold createJob_fee, fee, feePercentage.
    cbn [decimal.mul decimal.div decimal.lit exact.ops].
    unfold Qcdiv. ring. }
  split; [exact Hfee|].
  split; [unfold createJob_usdTotalAmount; rewrite Hfee; reflexivity|].
  change (@decimal.mul Qc exact.ops) with Qcmult in *.
  destruct (createJob_row_amounts env userId requestType dto st)
    as (evs & Htr & Hrows & _ & Hdb).
  unfold createJob_tokenFee, createJob_tokenFundAmount in *.
  fold fundAmount in Hrows, Hdb. rewrite Hfee in Hrows, Hdb.
  exists evs. split; [exact Htr|]. split; [exact Hrows|exact Hdb].
Qed.
End ExactAmounts.

(** * Properties of the reward filter *)
Section Rewards.
Import rewards rewardRule.
Local Open Scope list_scope.

Lemma tracks_empty : tracks ∅ [].
Proof.
  intros key Hkey. unfold truthyAt. rewrite lookup_empty.
  rewrite bool_decide_eq_false_2 by exact Hkey.
  symmetry. apply bool_decide_eq_false_2. apply not_elem_of_nil.
Qed.

Lemma tracks_repeat own earlier key :
  tracks own earlier -> key ∈ earlier -> tracks own (earlier ++ [key]).
Proof.
  intros Htr Hin k Hk. rewrite (Htr k Hk).
  apply bool_decide_ext. rewrite elem_of_app, list_elem_of_singleton.
  split; [tauto|]. intros [?| ->]; assumption.
Qed.

Lemma tracks_insert own earlier key :
  tracks own earlier -> tracks (<[key := true]> own) (earlier ++ [key]).
Proof.
  intros Htr k Hk. unfold truthyAt. rewrite lookup_insert.
  destruct (decide (key = k)) as [->|Hne].
  - symmetry. apply bool_decide_eq_true_2.
    apply elem_of_app. right. apply list_elem_of_singleton. reflexivity.
  - specialize (Htr k Hk). unfold truthyAt in Htr. rewrite Htr.
    apply bool_decide_ext. rewrite elem_of_app, list_elem_of_singleton.
    split; [tauto|]. intros [?|?]; [assumption|congruence].
Qed.

Lemma fold_step_expected entries : forall acc earlier,
  Forall (fun entry => fortune entry ∉ objectPrototype) entries ->
  tracks (tmpHashMap acc) earlier ->
  filteredResults (fold_left step entries acc)
    = filteredResults acc ++ firstOccurrencesFrom earlier entries /\
  reputation_acc (fold_left step entries acc)
    = reputation_acc acc ++ reputationsFrom earlier entries.
Proof.
  induction entries as [|entry rest IH]; intros acc earlier Hkeys Htr.
  - cbn. rewrite !app_nil_r. split; reflexivity.
  - inversion Hkeys as [|? ? Hkey Hrest]; subst.
    cbn [fold_left firstOccurrencesFrom reputationsFrom].
    unfold step at 2 4. rewrite (Htr _ Hkey).
    destruct (bool_decide (fortune entry ∈ earlier)) eqn:Hseen.
    + apply bool_decide_eq_true in Hseen.
      edestruct IH as [Hf Hr]; [exact Hrest| |rewrite Hf, Hr].
      * cbn. apply tracks_repeat; eassumption.
      * cbn. rewrite <- !app_assoc. split; reflexivity.
    + edestruct IH as [Hf Hr]; [exact Hrest| |rewrite Hf, Hr].
      * cbn. apply tracks_insert; eassumption.
      * cbn. rewrite <- !app_assoc. split; reflexivity.
Qed.

(** X28: on entries whose fortunes are not names of prototype properties,
    the filter follows the rule: [+1] and the checksummed address for the
    first entry of each fortune, [-1] for the later ones. *)
Lemma filterAddressesToReward_expected web3 entries :
  Forall (fun entry => fortune entry ∉ objectPrototype) entries ->
  filterAddressesToReward web3 entries = expected web3 entries.
Proof.
  intros Hkeys. unfold filterAddressesToReward, expected.
  destruct (fold_step_expected
              {| filteredResults := []; reputation_acc := [];
                 tmpHashMap := ∅ |} Hkeys tracks_empty) as [Hf Hr].
  cbn in Hf, Hr. rewrite Hf, Hr. reflexivity.
Qed.

(** C10: a first entry whose fortune is the name of a property that
    [tmpHashMap] inherits is taken for a repetition: it gets [-1] and its
    worker is left out, where the rule gives [+1] and keeps the worker. *)
Theorem filterAddressesToReward_inherited_key :
  let entries := [ {| worker := "0xA"; fortune := "constructor" |} ] in
  filterAddressesToReward sample.web3 entries
    = {| workerAddresses := [];
         reputationValues :=
           [ {| workerAddress := "0xA"; reputation := -1 |} ] |} /\
  expected sample.web3 entries
    = {| workerAddresses := ["0xA"];
         reputationValues :=
           [ {| workerAddress := "0xA"; reputation := 1 |} ] |}.
Proof. split; vm_compute; reflexivity. Qed.
End Rewards.

(** * The properties on the samples *)
Section Samples.
Import sample.
Local Open Scope list_scope.

(** A request of 200 against a balance of 100, on the supported chain. *)
Lemma createJob_NotEnoughFunds_witness :
  decimal.lt (q 100)
             (createJob_usdTotalAmount (env (q 100) None None true None)
                                       (q 200)) = true /\
  fst (createJob (env (q 100) None None true None) 1 FORTUNE
                 (dto (Some 80001) 200) st0)
    = Thrown (BadRequestException ErrorJob_NotEnoughFunds) /\
  jobs (snd (createJob (env (q 100) None None true None) 1 FORTUNE
                       (dto (Some 80001) 200) st0)) = jobs st0 /\
  payments (snd (createJob (env (q 100) None None true None) 1 FORTUNE
                           (dto (Some 80001) 200) st0)) = payments st0.
Proof.
  assert (Hlt : decimal.lt
                  (paymentService_getUserBalance
                     (env (q 100) None None true None) (payments st0) 1)
                  (createJob_usdTotalAmount (env (q 100) None None true None)
                     (JobDto.fundAmount (dto (Some 80001) 200))) = true)
    by (vm_compute; reflexivity).
  destruct (createJob_NotEnoughFunds (env (q 100) None None true None)
              1 FORTUNE (dto (Some 80001) 200) st0 Hlt)
    as (Hjobs & Hpay & _ & _ & Hr).
  split; [exact Hlt|]. split; [|split; assumption].
  apply Hr. intros c Hc _. injection Hc as <-. reflexivity.
Defined.

(** C1 as stated fails: the same request on an unsupported chain is below
    the total and is answered by the chain id check, not by
    [NotEnoughFunds]. *)
Lemma createJob_NotEnoughFunds_counterexample :
  decimal.lt (paymentService_getUserBalance
                (env (q 100) None None true None) (payments st0) 1)
             (createJob_usdTotalAmount (env (q 100) None None true None)
                (JobDto.fundAmount (dto (Some 999) 200))) = true /\
  fst (createJob (env (q 100) None None true None) 1 FORTUNE
                 (dto (Some 999) 200) st0)
    = Thrown (BadRequestException ErrorWeb3_InvalidChainId) /\
  fst (createJob (env (q 100) None None true None) 1 FORTUNE
                 (dto (Some 999) 200) st0)
    <> Thrown (BadRequestException ErrorJob_NotEnoughFunds).
Proof.
  split; [vm_compute; reflexivity|].
  split; [vm_compute; reflexivity|].
  vm_compute. discriminate.
Qed.

(** A request of 50 against a balance of 100: the row is saved as [PAID]
    at position 6 of the trace, after its creation and after the debit of
    110 tokens. *)
Lemma createJob_PENDING_before_PAID_witness :
  exists k l row p, (k < l < 6)%nat /\
    trace (snd (createJob (env (q 100) None None true None) 1 FORTUNE
                          (dto (Some 80001) 50) st0)) !! k
      = Some (EvJobCreate (Some row)) /\
    JobEntity.status row = PENDING /\
    trace (snd (createJob (env (q 100) None None true None) 1 FORTUNE
                          (dto (Some 80001) 50) st0)) !! l
      = Some (EvPaymentCreate p None) /\
    PaymentEntity.userId p = 1 /\
    PaymentEntity.amount p = q (-110).
Proof.
  destruct (createJob_PENDING_before_PAID (env (q 100) None None true None)
              1 FORTUNE (dto (Some 80001) 50) st0)
    as (evs & Htr & Hcreate & Hsave & _).
  change (trace st0 ++ evs) with evs in Htr. rewrite Htr.
  assert (Hlast : exists j, evs !! 6%nat = Some (EvJobSave j) /\
                            JobEntity.status j = PAID).
  { rewrite <- Htr. vm_compute. eexists. split; reflexivity. }
  destruct Hlast as (j & Hj & Hpaid).
  destruct (Hsave _ _ Hj Hpaid)
    as (k & l & row & p & Hkl & Hk & _ & Hl & Hu & _ & Ha).
  exists k, l, row, p. split; [exact Hkl|]. split; [exact Hk|].
  split; [apply Hcreate, list_elem_of_In;
          exact (list_elem_of_lookup_2 _ _ _ Hk)|].
  split; [exact Hl|]. split; [exact Hu|].
  rewrite Ha. apply Qc_is_canon. vm_compute. reflexivity.
Defined.

(** The debit is rejected, once with a numeric field overflow and once
    with another error: the row stays, [PENDING]. *)
Lemma createJob_payment_rejected_witness :
  (fst (createJob (env (q 100) (Some overflow) None true None) 1 FORTUNE
                  (dto (Some 80001) 50) st0)
     = Thrown (ConflictException ErrorPayment_IncorrectAmount) /\
   exists row,
     jobs (snd (createJob (env (q 100) (Some overflow) None true None) 1
                          FORTUNE (dto (Some 80001) 50) st0)) !! 1
       = Some row /\
     JobEntity.status row = PENDING) /\
  (fst (createJob (env (q 100) (Some timeout) None true None) 1 FORTUNE
                  (dto (Some 80001) 50) st0)
     = Thrown (ConflictException ErrorPayment_NotSuccess) /\
   exists row,
     jobs (snd (createJob (env (q 100) (Some timeout) None true None) 1
                          FORTUNE (dto (Some 80001) 50) st0)) !! 1
       = Some row /\
     JobEntity.status row = PENDING).
Proof.
  pose (debit :=
          PaymentEntity.mk 1 BALANCE WITHDRAWAL
            (decimal.neg (createJob_tokenTotalAmount
                            (env (q 100) None None true None) (q 50) (q 2)))
            HMT (decimal.div (decimal.lit 1) (q 2)) SUCCEEDED).
  split.
  - destruct (createJob_payment_rejected
                (env (q 100) (Some overflow) None true None)
                1 FORTUNE (dto (Some 80001) 50) st0
                (trace (snd (createJob
                               (env (q 100) (Some overflow) None true None)
                               1 FORTUNE (dto (Some 80001) 50) st0)))
                debit overflow)
      as (Hr & _ & _ & row & Hin & Hst & _ & Hrow).
    + reflexivity.
    + vm_compute. tauto.
    + split; [exact Hr|]. exists row. split; [|exact Hst].
      assert (Hid : JobEntity.id row = 1).
      { vm_compute in Hin. in_events Hin. reflexivity. }
      rewrite Hid in Hrow. exact Hrow.
  - destruct (createJob_payment_rejected
                (env (q 100) (Some timeout) None true None)
                1 FORTUNE (dto (Some 80001) 50) st0
                (trace (snd (createJob
                               (env (q 100) (Some timeout) None true None)
                               1 FORTUNE (dto (Some 80001) 50) st0)))
                debit timeout)
      as (Hr & _ & _ & row & Hin & Hst & _ & Hrow).
    + reflexivity.
    + vm_compute. tauto.
    + split; [exact Hr|]. exists row. split; [|exact Hst].
      assert (Hid : JobEntity.id row = 1).
      { vm_compute in Hin. in_events Hin. reflexivity. }
      rewrite Hid in Hrow. exact Hrow.
Defined.

(** A request with chain id 0: no chain is validated, no network is
    selected, and the row is written with chain id 0. *)
Lemma createJob_chainId_guards_witness :
  fst (createJob (env (q 100) None None true None) 1 FORTUNE
                 (dto (Some 0) 50) st0) = Returned 1 /\
  routingCalls (snd (createJob (env (q 100) None None true None) 1 FORTUNE
                               (dto (Some 0) 50) st0)) = 0%nat /\
  exists j,
    jobs (snd (createJob (env (q 100) None None true None) 1 FORTUNE
                         (dto (Some 0) 50) st0)) !! 1 = Some j /\
    JobEntity.chainId j = 0.
Proof.
  destruct (createJob_chainId_guards (env (q 100) None None true None)
              1 FORTUNE (dto (Some 0) 50) st0)
    as (evs & _ & _ & Hsel & Hzero).
  destruct (Hzero eq_refl) as (_ & Hret).
  assert (Hr : fst (createJob (env (q 100) None None true None) 1 FORTUNE
                              (dto (Some 0) 50) st0) = Returned 1)
    by (vm_compute; reflexivity).
  split; [exact Hr|]. split; [|exact (Hret 1 Hr)].
  destruct (decide (routingCalls
                      (snd (createJob (env (q 100) None None true None) 1
                                      FORTUNE (dto (Some 0) 50) st0))
                    = routingCalls st0)) as [Heq|Hne]; [exact Heq|].
  discriminate (Hsel (or_intror Hne)).
Defined.

(** The scenario of the spec: balance 100, request 50, fee 10 percent,
    rate 2.  Fee 5 and total 55; the row carries 100 and 10 tokens. *)
Lemma createJob_exact_amounts_witness :
  (0 < q 50)%Qc /\ (0 <= q 10)%Qc /\
  createJob_fee (env (q 100) None None true None) (q 50) = q 5 /\
  createJob_usdTotalAmount (env (q 100) None None true None) (q 50) = q 55 /\
  exists j,
    jobs (snd (createJob (env (q 100) None None true None) 1 FORTUNE
                         (dto (Some 80001) 50) st0)) !! 1 = Some j /\
    JobEntity.status j = PAID /\
    JobEntity.fundAmount j = q 100 /\
    JobEntity.fee j = q 10.
Proof.
  assert (Hpos : (0 < q 50)%Qc) by (vm_compute; reflexivity).
  assert (Hfee : (0 <= q 10)%Qc) by (vm_compute; discriminate).
  destruct (createJob_exact_amounts (env (q 100) None None true None)
              1 FORTUNE (dto (Some 80001) 50) st0 Hpos Hfee)
    as (Hf & Ht & evs & _ & _ & Hdb).
  change (JobDto.fundAmount (dto (Some 80001) 50)) with (q 50) in *.
  split; [exact Hpos|]. split; [exact Hfee|].
  split; [rewrite Hf; apply Qc_is_canon; vm_compute; reflexivity|].
  split; [rewrite Ht; apply Qc_is_canon; vm_compute; reflexivity|].
  assert (Hrow : exists j,
             jobs (snd (createJob (env (q 100) None None true None) 1 FORTUNE
                                  (dto (Some 80001) 50) st0)) !! 1 = Some j /\
             JobEntity.status j = PAID).
  { vm_compute. eexists. split; reflexivity. }
  destruct Hrow as (j & Hj & Hpaid).
  exists j. split; [exact Hj|]. split; [exact Hpaid|].
  destruct (Hdb 1 j Hj) as (Hjfee & Hjfund); [vm_compute; discriminate|].
  split.
  - rewrite Hjfund. apply Qc_is_canon. vm_compute. reflexivity.
  - rewrite Hjfee. apply Qc_is_canon. vm_compute. reflexivity.
Defined.

(** A [PAID] job with an annotation manifest, the webhook not acknowledged:
    the call throws, the row is [LAUNCHED] with its escrow address. *)
Lemma launchJob_LAUNCHED_witness :
  JobEntity.status paidJob = PAID /\
  hasAnnotationType cvatManifestOk = true /\
  fst (launchJob (env (q 100) None (Some cvatManifestOk) false None)
                 paidJob (stWith paidJob))
    = Thrown (NotFoundException ErrorJob_WebhookWasNotSent) /\
  jobs (snd (launchJob (env (q 100) None (Some cvatManifestOk) false None)
                       paidJob (stWith paidJob))) !! 1
    = Some launchedJob /\
  JobEntity.status launchedJob = LAUNCHED /\
  JobEntity.escrowAddress launchedJob = Some "0xESCROW".
Proof.
  destruct (launchJob_LAUNCHED
              (env (q 100) None (Some cvatManifestOk) false None)
              paidJob (stWith paidJob) (escrowAddress := "0xESCROW")
              (manifest := cvatManifestOk))
    as (Hrow & Hst & Haddr & Hr & _).
  - reflexivity.
  - discriminate.
  - reflexivity.
  - reflexivity.
  - split; [reflexivity|]. split; [reflexivity|].
    split; [exact Hr|]. split; [exact Hrow|]. split; [exact Hst|exact Haddr].
Defined.

(** The stored annotation manifest has no labels: nothing is transferred
    and the row is as it was. *)
Lemma launchJob_ManifestValidationFailed_witness :
  fst (launchJob (env (q 100) None (Some cvatManifestNoLabels) true None)
                 paidJob (stWith paidJob))
    = Thrown (NotFoundException ErrorJob_ManifestValidationFailed) /\
  jobs (snd (launchJob (env (q 100) None (Some cvatManifestNoLabels) true None)
                       paidJob (stWith paidJob))) !! 1
    = Some paidJob.
Proof.
  destruct (launchJob_ManifestValidationFailed
              (env (q 100) None (Some cvatManifestNoLabels) true None)
              paidJob (stWith paidJob) (escrowAddress := "0xESCROW")
              (manifest := cvatManifestNoLabels))
    as (Hr & Hjobs & _).
  - reflexivity.
  - discriminate.
  - reflexivity.
  - vm_compute. discriminate.
  - split; [exact Hr|]. rewrite Hjobs. reflexivity.
Defined.

(** A job that is [PAID], and a [LAUNCHED] job asked for by another user. *)
Lemma getResult_NotFound_witness :
  fst (getResult (env (q 100) None None true (Some "fortune result"))
                 1 1 (stWith paidJob))
    = Thrown (NotFoundException ErrorJob_NotFound) /\
  fst (getResult (env (q 100) None None true (Some "fortune result"))
                 2 1 (stWith launchedJob))
    = Thrown (NotFoundException ErrorJob_NotFound) /\
  fst (getResult (env (q 100) None None true (Some "fortune result"))
                 1 1 (stWith launchedJob))
    = Returned "fortune result".
Proof.
  destruct (getResult_NotFound
              (env (q 100) None None true (Some "fortune result"))
              1 1 (stWith paidJob)) as (Hstatus & _).
  destruct (getResult_NotFound
              (env (q 100) None None true (Some "fortune result"))
              2 1 (stWith launchedJob)) as (_ & Howner & _).
  split; [apply (Hstatus paidJob); [reflexivity|discriminate]|].
  split; [apply (Howner launchedJob); [reflexivity|discriminate]|].
  vm_compute. reflexivity.
Defined.

(** The job of the samples was created from a fortune request; an
    annotation result is returned for it as it is, and a document of
    neither shape is refused. *)
Lemma getResult_ResultValidationFailed_witness :
  fst (getResult (env (q 100) None None true (Some "annotation result"))
                 1 1 (stWith launchedJob))
    = Returned "annotation result" /\
  fst (getResult (env (q 100) None None true (Some "neither"))
                 1 1 (stWith launchedJob))
    = Thrown (NotFoundException ErrorJob_ResultValidationFailed).
Proof.
  assert (Hjob : launchedJobOf (stWith launchedJob) 1 1 launchedJob).
  { split; [reflexivity|]. split; reflexivity. }
  destruct (getResult_ResultValidationFailed
              (env (q 100) None None true (Some "annotation result"))
              1 1 (stWith launchedJob)) as (_ & Hret & _).
  destruct (getResult_ResultValidationFailed
              (env (q 100) None None true (Some "neither"))
              1 1 (stWith launchedJob)) as ((_ & Hthrown) & _).
  split.
  - apply Hret.
    + exists launchedJob, "http://bucket/result.json".
      split; [exact Hjob|]. split; [reflexivity|].
      split; [discriminate|reflexivity].
    + intros (_ & Hcvat). apply Hcvat. reflexivity.
  - apply Hthrown. exists "neither". split.
    + exists launchedJob, "http://bucket/result.json".
      split; [exact Hjob|]. split; [reflexivity|].
      split; [discriminate|reflexivity].
    + split; vm_compute; discriminate.
Defined.
End Samples.

(** * Further properties of [createJob] *)
Section CreateJobPaths.
Context {num : Type} `{!decimal.Ops num} {ResultDoc : Type}.
Variable env : Env num ResultDoc.

(** X1: once the chain id check has passed, [createJob] throws
    [NotEnoughFunds] exactly when [lt(userBalance, usdTotalAmount)] holds;
    every other exception of the method is a different one. *)
Theorem createJob_NotEnoughFunds_iff userId requestType dto st :
  (forall c, JobDto.chainId dto = Some c -> c <> 0 ->
             web3Service_validateChainId env c = None) ->
  fst (createJob env userId requestType dto st)
    = Thrown (BadRequestException ErrorJob_NotEnoughFunds) <->
  decimal.lt (paymentService_getUserBalance env (payments st) userId)
             (createJob_usdTotalAmount env (JobDto.fundAmount dto)) = true.
Proof.
  intros Hok.
  assert (Hchain : forall c e, JobDto.chainId dto = Some c ->
            negb (c =? 0) = true ->
            web3Service_validateChainId env c = Some e -> False).
  { intros c e Hc Hnz He. rewrite (Hok c Hc) in He; [discriminate|].
    intros ->. discriminate. }
  clear Hok. run_paths.
  all: try match goal with
           | Hn : negb (?c =? 0) = true,
             He : web3Service_validateChainId _ ?c = Some _ |- _ =>
               exfalso; exact (Hchain _ _ eq_refl Hn He)
           end.
  all: split; intros Hx; try discriminate; try reflexivity.
Qed.

(** X2: when the upload of the manifest gives no file, [createJob] throws
    [BadGateway UnableSaveFile]; no job row and no payment is written. *)
Theorem createJob_upload_failed userId requestType dto st evs manifest :
  let r := fst (createJob env userId requestType dto st) in
  let st' := snd (createJob env userId requestType dto st) in
  trace st' = trace st ++ evs ->
  In (EvUploadFiles manifest) evs ->
  storageClient_uploadFiles env manifest = None ->
  r = Thrown (BadGatewayException ErrorBucket_UnableSaveFile) /\
  jobs st' = jobs st /\ payments st' = payments st /\
  jobSeq st' = jobSeq st /\
  forall ev, In ev evs ->
    match ev with
    | EvJobCreate _ | EvPaymentCreate _ _ | EvJobSave _ | EvSelectNetwork =>
        False
    | _ => True
    end.
Proof.
  cbv zeta. run_paths.
  all: intros Htr Hin Hnone; apply app_inv_head in Htr; subst evs.
  all: in_events Hin; try congruence.
  all: repeat split; try reflexivity.
  all: intros ev Hev; cbn [In] in Hev.
  all: repeat (destruct Hev as [<-|Hev]; [exact I|]); contradiction.
Qed.

(** X3: when [jobRepository.create] resolves to nothing, [createJob] throws
    [NotFound NotCreated]: the manifest has been uploaded, and no row and no
    payment is written. *)
Theorem createJob_not_created userId requestType dto st evs :
  let r := fst (createJob env userId requestType dto st) in
  let st' := snd (createJob env userId requestType dto st) in
  trace st' = trace st ++ evs ->
  In (EvJobCreate None) evs ->
  r = Thrown (NotFoundException ErrorJob_NotCreated) /\
  jobs st' = jobs st /\ payments st' = payments st /\
  (exists manifest file,
     In (EvUploadFiles manifest) evs /\
     storageClient_uploadFiles env manifest = Some file) /\
  forall p rejected, ~ In (EvPaymentCreate p rejected) evs.
Proof.
  cbv zeta. run_paths.
  all: intros Htr Hin; apply app_inv_head in Htr; subst evs.
  all: in_events Hin.
  all: split; [reflexivity|]; split; [reflexivity|]; split; [reflexivity|].
  all: split; [do 2 eexists; split; [cbn [In]; eauto 10|eassumption]|].
  all: intros p rejected Hp; in_events Hp.
Qed.

(** What the state is when [createJob] returns. *)
Lemma createJob_Returned_inv userId requestType dto st id :
  let st' := snd (createJob env userId requestType dto st) in
  let rate := getRate env USD HMT in
  fst (createJob env userId requestType dto st) = Returned id ->
  id = jobSeq st /\ jobSeq st' = jobSeq st + 1 /\
  payments st' =
    payments st ++ [createJob_payment env userId (JobDto.fundAmount dto)] /\
  exists manifest file,
    In (EvUploadFiles manifest) (trace st') /\
    storageClient_uploadFiles env manifest = Some file /\
    jobs st' =
      <[id := JobEntity.mk id (createJob_chainId env dto st) userId
                (UploadFile.url file) (UploadFile.hash file)
                (createJob_tokenFee env (JobDto.fundAmount dto) rate)
                (createJob_tokenFundAmount (JobDto.fundAmount dto) rate)
                PAID (now env) None]> (jobs st).
Proof.
  cbv zeta. unfold createJob_chainId, createJob_payment. run_paths.
  all: intros Hid; try discriminate Hid; simplify_eq.
  all: split; [reflexivity|]; split; [reflexivity|]; split; [reflexivity|].
  all: do 2 eexists; split; [apply in_or_app; right; cbn [In]; eauto 10|].
  all: split; [eassumption|].
  all: cbn; rewrite insert_insert_eq; reflexivity.
Qed.

(** X4: when [createJob] returns, it returns the next identifier of the
    table; under it stands a [PAID] row without escrow address, with the
    url and hash of the uploaded manifest and the token amounts; exactly
    one payment, the withdrawal of the token total, has been appended. *)
Theorem createJob_returns userId requestType dto st id :
  let st' := snd (createJob env userId requestType dto st) in
  let rate := getRate env USD HMT in
  fst (createJob env userId requestType dto st) = Returned id ->
  id = jobSeq st /\ jobSeq st' = jobSeq st + 1 /\
  payments st' =
    payments st ++ [createJob_payment env userId (JobDto.fundAmount dto)] /\
  exists manifest file,
    In (EvUploadFiles manifest) (trace st') /\
    storageClient_uploadFiles env manifest = Some file /\
    jobs st' =
      <[id := JobEntity.mk id (createJob_chainId env dto st) userId
                (UploadFile.url file) (UploadFile.hash file)
                (createJob_tokenFee env (JobDto.fundAmount dto) rate)
                (createJob_tokenFundAmount (JobDto.fundAmount dto) rate)
                PAID (now env) None]> (jobs st).
Proof.
  cbv zeta. unfold createJob_chainId, createJob_payment. run_paths.
  all: intros Hid; try discriminate Hid; simplify_eq.
  all: split; [reflexivity|]; split; [reflexivity|]; split; [reflexivity|].
  all: do 2 eexists; split; [apply in_or_app; right; cbn [In]; eauto 10|].
  all: split; [eassumption|].
  all: cbn; rewrite insert_insert_eq; reflexivity.
Qed.

(** A [createJob] that returns has found the balance sufficient. *)
Lemma createJob_Returned_lt userId requestType dto st id :
  fst (createJob env userId requestType dto st) = Returned id ->
  decimal.lt (paymentService_getUserBalance env (payments st) userId)
             (createJob_usdTotalAmount env (JobDto.fundAmount dto)) = false.
Proof.
  run_paths.
  all: intros Hid; try discriminate Hid; first [assumption|reflexivity].
Qed.

(** X5: a [createJob] that throws has recorded no payment; if it has
    written a row, the exception is one of the two of the rejected debit
    and the row is [PENDING]. *)
Theorem createJob_thrown userId requestType dto st e :
  let st' := snd (createJob env userId requestType dto st) in
  fst (createJob env userId requestType dto st) = Thrown e ->
  payments st' = payments st /\
  forall id j, jobs st' !! id = Some j -> jobs st !! id <> Some j ->
    JobEntity.status j = PENDING /\
    (e = ConflictException ErrorPayment_IncorrectAmount \/
     e = ConflictException ErrorPayment_NotSuccess).
Proof.
  cbv zeta. run_paths.
  all: intros He; try discriminate He; simplify_eq.
  all: split; [reflexivity|].
  all: intros id j Hl Hn; cbn in Hl.
  all: repeat (rewrite lookup_insert in Hl; case_decide; simplify_eq).
  all: try contradiction; cbn; auto.
Qed.

(** X6: without a chain id, the rows carry the chain that the selector
    gives for its current call count; the selector is called exactly when
    the method comes to [jobRepository.create], and then once. *)
Theorem createJob_selects_network userId requestType dto st :
  let st' := snd (createJob env userId requestType dto st) in
  JobDto.chainId dto = None ->
  exists evs, trace st' = trace st ++ evs /\
    (forall j, In (EvJobCreate (Some j)) evs \/ In (EvJobSave j) evs ->
       JobEntity.chainId j =
         routingProtocolService_selectNetwork env (routingCalls st)) /\
    (In EvSelectNetwork evs <-> exists created, In (EvJobCreate created) evs) /\
    (In EvSelectNetwork evs -> routingCalls st' = S (routingCalls st)) /\
    (~ In EvSelectNetwork evs -> routingCalls st' = routingCalls st).
Proof.
  cbv zeta. intros Hnone. run_service. rewrite Hnone. run_paths.
  all: eexists; split; [reflexivity|].
  all: split; [intros j [Hj|Hj]; in_events Hj; try reflexivity|].
  all: split;
    [split; [intros Hs; in_events Hs; eexists; cbn [In]; eauto 10
            |intros (created & Hc); in_events Hc; cbn [In]; auto 10]|].
  all: split; [intros Hs; in_events Hs; reflexivity|].
  all: intros Hs; try reflexivity.
  all: exfalso; apply Hs; cbn [In]; auto 10.
Qed.

(** X7: a request that is not a fortune request and has no [labels]
    throws [TypeError] once the balance check has passed; nothing is
    uploaded or written. *)
Theorem createJob_labels_missing userId requestType dto st :
  let st' := snd (createJob env userId requestType dto st) in
  requestType <> FORTUNE ->
  JobDto.labels dto = None ->
  (forall c, JobDto.chainId dto = Some c -> c <> 0 ->
             web3Service_validateChainId env c = None) ->
  decimal.lt (paymentService_getUserBalance env (payments st) userId)
             (createJob_usdTotalAmount env (JobDto.fundAmount dto)) = false ->
  fst (createJob env userId requestType dto st) = Thrown TypeError /\
  jobs st' = jobs st /\ payments st' = payments st /\
  exists evs, trace st' = trace st ++ evs /\
              forall ev, In ev evs -> isPersistence ev = false.
Proof.
  cbv zeta. intros Hrt Hlabels Hok Hlt.
  assert (Hchain : forall c e, JobDto.chainId dto = Some c ->
            negb (c =? 0) = true ->
            web3Service_validateChainId env c = Some e -> False).
  { intros c e Hc Hnz He. rewrite (Hok c Hc) in He; [discriminate|].
    intros ->. discriminate. }
  clear Hok. run_paths.
  all: try match goal with
           | Hn : negb (?c =? 0) = true,
             He : web3Service_validateChainId _ ?c = Some _ |- _ =>
               exfalso; exact (Hchain _ _ eq_refl Hn He)
           end.
  all: try congruence.
  all: try match goal with
           | Hb : bool_decide (_ = FORTUNE) = true |- _ =>
               apply bool_decide_eq_true in Hb; contradiction
           end.
  all: repeat split; try reflexivity.
  all: eexists; split; [reflexivity|].
  all: intros ev Hev; cbn [In] in Hev.
  all: repeat (destruct Hev as [<-|Hev]; [reflexivity|]); contradiction.
Qed.

(** X8: the manifest [createJob] uploads is validated by [launchJob]
    against the class of the request type, and makes [launchJob] post the
    webhook exactly when the request is not a fortune request.  The
    fortune manifest carries the token fund amount; the other one the
    labels of the request and its type. *)
Theorem createJob_uploaded_manifest userId requestType dto st manifest :
  let st' := snd (createJob env userId requestType dto st) in
  let rate := getRate env USD HMT in
  In (EvUploadFiles manifest) (trace st') ->
  ~ In (EvUploadFiles manifest) (trace st) ->
  (Manifest.requestType manifest = Some FORTUNE <-> requestType = FORTUNE) /\
  hasAnnotationType manifest = negb (bool_decide (requestType = FORTUNE)) /\
  (requestType = FORTUNE ->
   Manifest.fundAmount manifest =
     Some (createJob_tokenFundAmount (JobDto.fundAmount dto) rate)) /\
  (requestType <> FORTUNE ->
   exists annotation,
     Manifest.annotation manifest = Some annotation /\
     CvatAnnotation.type annotation = Some requestType /\
     CvatAnnotation.labels annotation =
       (fun labels => map (fun item => {| name := item |}) labels)
         <$> JobDto.labels dto).
Proof.
  cbv zeta. run_paths.
  all: intros Hin Hold; apply in_app_or in Hin; destruct Hin as [Hin|Hin];
    [contradiction|]; in_events Hin.
  all: repeat match goal with
              | H : bool_decide _ = true |- _ => apply bool_decide_eq_true in H
              | H : bool_decide _ = false |- _ =>
                  apply bool_decide_eq_false in H
              end.
  all: subst; cbn.
  all: repeat split; try congruence; try discriminate; try reflexivity.
  all: try (rewrite bool_decide_eq_false_2 by assumption; reflexivity).
  all: intros _; eexists; split; [reflexivity|]; split; [reflexivity|].
  all: reflexivity.
Qed.
End CreateJobPaths.

(** * Further properties of [launchJob] *)
Section LaunchJobPaths.
Context {num : Type} `{!decimal.Ops num} {ResultDoc : Type}.
Variable env : Env num ResultDoc.

(** X9: when the escrow client gives no address or an empty one,
    [launchJob] throws [NotFound EscrowNotCreated] after this one call:
    nothing is downloaded, transferred or saved. *)
Theorem launchJob_escrow_not_created jobEntity st :
  let chainId := JobEntity.chainId jobEntity in
  let token := NETWORKS_hmtAddress env chainId in
  let r := fst (launchJob env jobEntity st) in
  let st' := snd (launchJob env jobEntity st) in
  truthyStr (escrowClient_createAndSetupEscrow env chainId token []
               (launchJob_escrowConfig env jobEntity)) = false ->
  r = Thrown (NotFoundException ErrorEscrow_NotCreated) /\
  jobs st' = jobs st /\ payments st' = payments st /\
  trace st' = trace st ++
    [EvCreateAndSetupEscrow chainId token (launchJob_escrowConfig env jobEntity);
     EvLog (LogMessage ErrorEscrow_NotCreated)].
Proof.
  cbv zeta. unfold launchJob_escrowConfig. intros Hfalsy.
  run_service. rewrite Hfalsy. cbn. flat_trace. auto.
Qed.

(** X10: when the escrow exists but the manifest cannot be downloaded,
    [launchJob] throws [NotFound ManifestNotFound]: the escrow has been
    created, and nothing is transferred or saved. *)
Theorem launchJob_manifest_not_found jobEntity st :
  let chainId := JobEntity.chainId jobEntity in
  let token := NETWORKS_hmtAddress env chainId in
  let r := fst (launchJob env jobEntity st) in
  let st' := snd (launchJob env jobEntity st) in
  truthyStr (escrowClient_createAndSetupEscrow env chainId token []
               (launchJob_escrowConfig env jobEntity)) = true ->
  downloadManifest env (JobEntity.manifestUrl jobEntity) = None ->
  r = Thrown (NotFoundException ErrorJob_ManifestNotFound) /\
  jobs st' = jobs st /\ payments st' = payments st /\
  trace st' = trace st ++
    [EvCreateAndSetupEscrow chainId token (launchJob_escrowConfig env jobEntity);
     EvDownload (JobEntity.manifestUrl jobEntity)].
Proof.
  cbv zeta. unfold launchJob_escrowConfig. intros Htruthy Hnone.
  run_service. rewrite Htruthy. cbn. rewrite Hnone. cbn. flat_trace. auto.
Qed.

(** X11: [launchJob] writes no payment and no row but its own: the table
    of jobs is unchanged, or the row of the job has become the job with
    the escrow address and status [LAUNCHED]. *)
Theorem launchJob_frame jobEntity st :
  let st' := snd (launchJob env jobEntity st) in
  payments st' = payments st /\ jobSeq st' = jobSeq st /\
  routingCalls st' = routingCalls st /\
  (forall id, id <> JobEntity.id jobEntity -> jobs st' !! id = jobs st !! id) /\
  (jobs st' = jobs st \/
   exists escrowAddress,
     jobs st' = <[JobEntity.id jobEntity :=
                    JobEntity.set_status LAUNCHED
                      (JobEntity.set_escrowAddress escrowAddress jobEntity)]>
                  (jobs st)).
Proof.
  cbv zeta. run_paths.
  all: split; [reflexivity|]; split; [reflexivity|]; split; [reflexivity|].
  all: split; [intros id Hid; cbn; try reflexivity;
               apply lookup_insert_ne; congruence|].
  all: first [left; reflexivity|right; eexists; reflexivity].
Qed.

(** X12: the row is saved only after the transfer of exactly the fund
    amount of the job, on the chain of the job, to the escrow address that
    the row then carries; and there is at most one transfer. *)
Theorem launchJob_transfer jobEntity st :
  let st' := snd (launchJob env jobEntity st) in
  exists evs, trace st' = trace st ++ evs /\
    (forall i j, evs !! i = Some (EvJobSave j) ->
       exists k, (k < i)%nat /\
         evs !! k = Some (EvTransfer (JobEntity.chainId jobEntity)
                                     (JobEntity.escrowAddress j)
                                     (JobEntity.fundAmount jobEntity))) /\
    (forall c a amount, In (EvTransfer c a amount) evs ->
       c = JobEntity.chainId jobEntity /\
       amount = JobEntity.fundAmount jobEntity /\ truthyStr a = true) /\
    (length (List.filter isTransfer evs) <= 1)%nat.
Proof.
  cbv zeta. run_paths.
  all: eexists; split; [reflexivity|].
  all: split; [intros i j Hi; at_index i Hi; simplify_eq;
               exists 2%nat; split; first [lia|reflexivity]|].
  all: split; [intros c a amount Hin; in_events Hin;
               repeat split; try reflexivity;
               try match goal with
                   | Hf : negb _ = false |- _ =>
                       apply negb_false_iff in Hf; exact Hf
                   end|].
  all: cbn; lia.
Qed.


(** X13: when [launchJob] returns, the escrow client gave a non-empty
    address, the manifest was downloaded and passed validation, the
    webhook, if due, was acknowledged, and the returned entity is the job
    with that address and status [LAUNCHED], as saved. *)
Theorem launchJob_returns jobEntity st launched :
  let chainId := JobEntity.chainId jobEntity in
  let st' := snd (launchJob env jobEntity st) in
  fst (launchJob env jobEntity st) = Returned launched ->
  exists escrowAddress manifest,
    escrowClient_createAndSetupEscrow env chainId
      (NETWORKS_hmtAddress env chainId) []
      (launchJob_escrowConfig env jobEntity) = Some escrowAddress /\
    escrowAddress <> "" /\
    downloadManifest env (JobEntity.manifestUrl jobEntity) = Some manifest /\
    validateManifestDto env
      (if bool_decide (Manifest.requestType manifest = Some FORTUNE)
       then FortuneManifestDto else CvatManifestDto) manifest = [] /\
    (hasAnnotationType manifest = true ->
     httpService_post env (EXCHANGE_ORACLE_WEBHOOK_URL env)
       (SendWebhookDto.mk (Some escrowAddress) chainId) = true) /\
    launched = JobEntity.set_status LAUNCHED
                 (JobEntity.set_escrowAddress (Some escrowAddress) jobEntity) /\
    jobs st' = <[JobEntity.id jobEntity := launched]> (jobs st) /\
    payments st' = payments st /\
    In (EvTransfer chainId (Some escrowAddress)
                   (JobEntity.fundAmount jobEntity)) (trace st').
Proof.
  cbv zeta. unfold launchJob_escrowConfig. run_paths.
  all: intros Hr; try discriminate Hr; simplify_eq.
  all: match goal with
       | Hf : negb (truthyStr ?o) = false |- _ =>
           destruct o as [a|] eqn:Hesc; [|discriminate Hf];
           apply negb_false_iff in Hf; cbn in Hf;
           destruct (String.eqb_spec a "") as [->|Hne]; [discriminate Hf|]
       end.
  all: exists a; eexists; split; [reflexivity|]; split; [exact Hne|].
  all: split; [reflexivity|].
  all: split; [match goal with
               | Hb : bool_decide _ = _,
                 Hl : (0 <? length ?l)%nat = false |- _ =>
                   rewrite Hb; destruct l; [reflexivity|discriminate Hl]
               end|].
  all: split; [first [intros _; assumption|congruence]|].
  all: split; [reflexivity|]; split; [reflexivity|]; split; [reflexivity|].
  all: apply in_or_app; right; cbn [In]; auto 10.
Qed.
End LaunchJobPaths.

(** * [createJob] followed by [launchJob], and further properties of
      [getResult] *)
Section Lifecycle.
Context {num : Type} `{!decimal.Ops num} {ResultDoc : Type}.
Variable env : Env num ResultDoc.


(** X15: [getResult] only reads: tables and counters are as before, and
    the calls it makes are the query for the results url, the download
    and the log. *)
Theorem getResult_read_only userId jobId st :
  let st' := snd (getResult env userId jobId st) in
  jobs st' = jobs st /\ payments st' = payments st /\
  jobSeq st' = jobSeq st /\ routingCalls st' = routingCalls st /\
  exists evs, trace st' = trace st ++ evs /\
    forall ev, In ev evs ->
      match ev with
      | EvLog _ | EvGetResultsUrl _ _ | EvDownload _ => True
      | _ => False
      end.
Proof.
  cbv zeta.
  destruct (findOne_cases st userId jobId)
    as [(job & _ & Hf)|(_ & Hf)]; unfold getResult, bind; rewrite Hf.
  all: run_paths.
  all: repeat (split; [reflexivity|]).
  all: eexists; split; [first [reflexivity|symmetry; apply app_nil_r]|].
  all: intros ev Hev; cbn [In] in Hev.
  all: repeat (destruct Hev as [<-|Hev]; [exact I|]); contradiction.
Qed.

(** X16: [getResult] throws [NotFound ResultNotFound] exactly when the
    launched job of the user exists and the escrow gives no results url, or
    an empty one, or the download from that url gives nothing. *)
Theorem getResult_ResultNotFound userId jobId st :
  fst (getResult env userId jobId st)
    = Thrown (NotFoundException ErrorJob_ResultNotFound) <->
  exists job,
    launchedJobOf st userId jobId job /\
    let finalResultUrl :=
      escrowClient_getResultsUrl env (JobEntity.chainId job)
                                 (JobEntity.escrowAddress job) in
    (truthyStr finalResultUrl = false \/
     exists url, finalResultUrl = Some url /\ downloadResult env url = None).
Proof.
  cbv zeta.
  assert (Hsame : forall job job',
             launchedJobOf st userId jobId job ->
             launchedJobOf st userId jobId job' -> job' = job).
  { intros job job' (Hj & _) (Hj' & _). congruence. }
  destruct (findOne_cases st userId jobId)
    as [(job & Hl & Hf)|(Hno & Hf)]; unfold getResult, bind; rewrite Hf.
  - run_service.
    destruct (escrowClient_getResultsUrl env _ _) as [url|] eqn:Hurl;
      cbn [truthyStr negb].
    + destruct (String.eqb_spec url "") as [->|Hne]; cbn [negb fst].
      * split; [intros _|reflexivity].
        exists job. split; [exact Hl|]. left. rewrite Hurl. reflexivity.
      * destruct (downloadResult env url) as [result|] eqn:Hdl; cbn [fst].
        -- destruct (_ && _); cbn [fst]; (split; [discriminate|]).
           all: intros (job' & Hl' & Hcase);
             rewrite (Hsame _ _ Hl Hl'), Hurl in Hcase;
             destruct Hcase as [Hfalsy|(url' & Hu' & Hd')];
             [cbn in Hfalsy; destruct (String.eqb_spec url "");
                [contradiction|discriminate]
             |congruence].
        -- split; [intros _|reflexivity].
           exists job. split; [exact Hl|]. right. exists url.
           split; [exact Hurl|exact Hdl].
    + cbn [fst]. split; [intros _|reflexivity].
      exists job. split; [exact Hl|]. left. rewrite Hurl. reflexivity.
  - run_service. split; [discriminate|].
    intros (job & Hl & _). destruct (Hno _ Hl).
Qed.

(** X17: a result that [getResult] returns is the document downloaded from
    the results url of the launched job of the user, and it passes the
    validation of at least one of the two result classes. *)
Theorem getResult_returns userId jobId st result :
  fst (getResult env userId jobId st) = Returned result ->
  exists job url,
    launchedJobOf st userId jobId job /\
    escrowClient_getResultsUrl env (JobEntity.chainId job)
      (JobEntity.escrowAddress job) = Some url /\
    url <> "" /\
    downloadResult env url = Some result /\
    (validateResultDto env FortuneFinalResultDto result = [] \/
     validateResultDto env CvatFinalResultDto result = []).
Proof.
  destruct (findOne_cases st userId jobId)
    as [(job & Hl & Hf)|(Hno & Hf)]; unfold getResult, bind; rewrite Hf.
  - run_service.
    destruct (escrowClient_getResultsUrl env _ _) as [url|] eqn:Hurl;
      cbn [truthyStr negb]; [|discriminate].
    destruct (String.eqb_spec url "") as [->|Hne]; cbn [negb fst];
      [discriminate|].
    destruct (downloadResult env url) as [doc|] eqn:Hdl; cbn [fst];
      [|discriminate].
    destruct (_ && _) eqn:Hb; cbn [fst]; [discriminate|].
    intros Hr. injection Hr as <-.
    exists job, url. repeat (split; [assumption|]).
    apply andb_false_iff in Hb.
    destruct Hb as [Hb|Hb]; [left|right];
      match type of Hb with
      | (0 <? length ?l)%nat = false => destruct l; [reflexivity|discriminate]
      end.
  - run_service. discriminate.
Qed.
End Lifecycle.

(** * Further properties under exact arithmetic *)
Section ExactDebit.
Context {ResultDoc : Type}.
Variable env : Env Qc ResultDoc.

(** X18: under exact arithmetic, a [createJob] that returns found the
    balance at least equal to [fundAmount + fee] -- a balance equal to the
    total is enough -- and its one payment is the withdrawal of that total
    multiplied by the rate, at the inverse rate. *)
Theorem createJob_exact_debit userId requestType dto st id :
  let fundAmount := JobDto.fundAmount dto in
  let rate := getRate env USD HMT in
  let usdTotal :=
    (fundAmount + fundAmount * JOB_LAUNCHER_FEE env / exact.ofZ 100)%Qc in
  let st' := snd (createJob env userId requestType dto st) in
  fst (createJob env userId requestType dto st) = Returned id ->
  (usdTotal <= paymentService_getUserBalance env (payments st) userId)%Qc /\
  exists p,
    payments st' = payments st ++ [p] /\
    PaymentEntity.userId p = userId /\
    PaymentEntity.amount p = (- (usdTotal * rate))%Qc /\
    PaymentEntity.rate p = (exact.ofZ 1 / rate)%Qc.
Proof.
  intros fundAmount rate usdTotal st' Hid.
  assert (Htotal : createJob_usdTotalAmount env fundAmount = usdTotal).
  { unfold createJob_usdTotalAmount, createJob_fee, usdTotal.
    cbn [decimal.add decimal.mul decimal.div decimal.lit exact.ops].
    unfold Qcdiv. ring. }
  split.
  - pose proof (createJob_Returned_lt env userId requestType dto st Hid) as Hlt.
    fold fundAmount in Hlt. rewrite Htotal in Hlt.
    cbn [decimal.lt exact.ops] in Hlt.
    apply bool_decide_eq_false in Hlt. apply Qcnot_lt_le. exact Hlt.
  - destruct (createJob_Returned_inv env userId requestType dto st Hid)
      as (_ & _ & Hpay & _).
    eexists. split; [exact Hpay|]. split; [reflexivity|].
    split; [|reflexivity].
    cbn [createJob_payment PaymentEntity.amount].
    unfold createJob_tokenTotalAmount, createJob_tokenFundAmount,
      createJob_tokenFee, createJob_fee, usdTotal, rate, fundAmount.
    cbn [decimal.add decimal.mul decimal.div decimal.lit decimal.neg
         exact.ops].
    unfold Qcdiv. ring.
Qed.
End ExactDebit.

(** * Further properties of the reward filter *)
Section RewardsShape.
Import rewards rewardRule.

Lemma step_reputations acc entry :
  exists r,
    reputation_acc (step acc entry) = reputation_acc acc ++ [r] /\
    workerAddress r = worker entry /\
    (reputation r = 1 \/ reputation r = -1) /\
    filteredResults (step acc entry)
      = filteredResults acc ++ (if plusOne r then [entry] else []).
Proof.
  unfold step. destruct (truthyAt _ _); cbn.
  - exists {| workerAddress := worker entry; reputation := -1 |}.
    cbn. rewrite app_nil_r. auto.
  - exists {| workerAddress := worker entry; reputation := 1 |}.
    cbn. auto.
Qed.

Lemma fold_step_shape entries : forall acc,
  exists rs,
    reputation_acc (fold_left step entries acc) = reputation_acc acc ++ rs /\
    map workerAddress rs = map worker entries /\
    Forall (fun r => reputation r = 1 \/ reputation r = -1) rs /\
    exists fs,
      filteredResults (fold_left step entries acc)
        = filteredResults acc ++ fs /\
      map worker fs = map workerAddress (List.filter plusOne rs).
Proof.
  induction entries as [|entry rest IH]; intros acc.
  - exists []. cbn. rewrite !app_nil_r. repeat split; auto.
    exists []. rewrite app_nil_r. auto.
  - destruct (step_reputations acc entry) as (r & Hr & Hw & Hpm & Hf).
    destruct (IH (step acc entry)) as (rs & Hrs & Hws & Hall & fs & Hfs & Hm).
    exists (r :: rs). cbn [fold_left].
    rewrite Hrs, Hr, <- app_assoc. split; [reflexivity|].
    split; [cbn; congruence|]. split; [constructor; assumption|].
    exists ((if plusOne r then [entry] else []) ++ fs).
    rewrite Hfs, Hf, <- app_assoc. split; [reflexivity|].
    cbn [List.filter]. destruct (plusOne r); cbn; congruence.
Qed.

(** X19: whatever the input, the reputations come one for each entry, in
    the order of the entries and for the worker of the entry, each is [+1]
    or [-1], and the rewarded addresses are the checksummed addresses of
    the entries that got [+1], in that order. *)
Theorem filterAddressesToReward_shape web3 entries :
  let out := filterAddressesToReward web3 entries in
  map workerAddress (reputationValues out) = map worker entries /\
  Forall (fun r => reputation r = 1 \/ reputation r = -1)
         (reputationValues out) /\
  workerAddresses out =
    map (toChecksumAddress web3)
        (map workerAddress (List.filter plusOne (reputationValues out))).
Proof.
  cbv zeta. unfold filterAddressesToReward. cbn.
  destruct (fold_step_shape entries
              {| filteredResults := []; reputation_acc := [];
                 tmpHashMap := ∅ |})
    as (rs & Hrs & Hws & Hall & fs & Hfs & Hm).
  cbn in Hrs, Hfs. rewrite Hrs, Hfs. repeat split; congruence.
Qed.

(** X20: entries that come later do not change what the earlier ones get:
    the output for a list is a prefix of the output for any extension. *)
Theorem filterAddressesToReward_prefix web3 entries more :
  exists reputations workers,
    reputationValues (filterAddressesToReward web3 (entries ++ more))
      = reputationValues (filterAddressesToReward web3 entries)
        ++ reputations /\
    workerAddresses (filterAddressesToReward web3 (entries ++ more))
      = workerAddresses (filterAddressesToReward web3 entries) ++ workers /\
    length reputations = length more.
Proof.
  unfold filterAddressesToReward. cbn. rewrite fold_left_app.
  destruct (fold_step_shape more
              (fold_left step entries
                 {| filteredResults := []; reputation_acc := [];
                    tmpHashMap := ∅ |}))
    as (rs & Hrs & Hws & _ & fs & Hfs & _).
  exists rs, (map (toChecksumAddress web3) (map worker fs)).
  rewrite Hrs, Hfs, !map_app. repeat split.
  apply (f_equal (@length _)) in Hws. rewrite !length_map in Hws. exact Hws.
Qed.

Lemma size_add_fresh (a : string) (X : gset string) :
  a ∉ X -> size ({[a]} ∪ X) = S (size X).
Proof.
  intros Ha. rewrite size_union.
  - rewrite size_singleton. reflexivity.
  - intros x Hx Hx'. apply elem_of_singleton in Hx. subst. contradiction.
Qed.

Lemma difference_seen (a : string) (X E : gset string) :
  a ∈ E -> ({[a]} ∪ X) ∖ E = X ∖ (E ∪ ({[a]} ∪ ∅)).
Proof.
  intros Ha. apply set_eq. intros x.
  rewrite !elem_of_difference, !elem_of_union, !elem_of_singleton,
    elem_of_empty.
  split.
  - intros [[->|Hx] Hn]; [contradiction|]. split; [exact Hx|].
    intros [?|[->|[]]]; contradiction.
  - intros [Hx Hn]. split; [right; exact Hx|].
    intros ?. apply Hn. left. assumption.
Qed.

Lemma difference_fresh (a : string) (X E : gset string) :
  a ∉ E -> ({[a]} ∪ X) ∖ E = {[a]} ∪ (X ∖ (E ∪ ({[a]} ∪ ∅))).
Proof.
  intros Ha. apply set_eq. intros x.
  rewrite !elem_of_union, !elem_of_difference, !elem_of_union,
    !elem_of_singleton, elem_of_empty.
  destruct (decide (x = a)) as [->|Hne]; tauto.
Qed.

Lemma firstOccurrences_count entries : forall earlier,
  length (firstOccurrencesFrom earlier entries)
    = size ((list_to_set (map fortune entries) : gset string)
              ∖ (list_to_set earlier : gset string)).
Proof.
  induction entries as [|entry rest IH]; intros earlier.
  - cbn.
    assert (Hempty : (∅ : gset string) ∖ list_to_set earlier = ∅).
    { apply set_eq. intros x. rewrite elem_of_difference, elem_of_empty.
      tauto. }
    rewrite Hempty. reflexivity.
  - cbn [firstOccurrencesFrom map list_to_set]. rewrite length_app, IH.
    rewrite list_to_set_app_L. cbn [list_to_set].
    destruct (bool_decide (fortune entry ∈ earlier)) eqn:Hseen.
    + apply bool_decide_eq_true in Hseen. cbn [length Nat.add].
      rewrite difference_seen by (apply elem_of_list_to_set; exact Hseen).
      reflexivity.
    + apply bool_decide_eq_false in Hseen. cbn [length Nat.add].
      rewrite difference_fresh
        by (rewrite elem_of_list_to_set; exact Hseen).
      rewrite size_add_fresh; [reflexivity|].
      rewrite elem_of_difference, !elem_of_union, elem_of_singleton. tauto.
Qed.

(** X21: when no fortune of the input is the name of an inherited property,
    as many workers are rewarded as there are distinct fortunes. *)
Theorem filterAddressesToReward_distinct web3 entries :
  Forall (fun entry => fortune entry ∉ objectPrototype) entries ->
  length (workerAddresses (filterAddressesToReward web3 entries))
    = size (list_to_set (map fortune entries) : gset string).
Proof.
  intros Hkeys. unfold filterAddressesToReward. cbn [workerAddresses].
  destruct (fold_step_expected
              {| filteredResults := []; reputation_acc := [];
                 tmpHashMap := ∅ |} Hkeys tracks_empty) as [Hf _].
  cbn in Hf. rewrite Hf, !length_map.
  rewrite firstOccurrences_count. f_equal. cbn.
  apply set_eq. intros x. rewrite elem_of_difference, elem_of_empty. tauto.
Qed.
End RewardsShape.

(** * Properties of the reputation contract *)
Section ReputationContract.
Import Reputation.
Variable L : Libraries.

Lemma rate_inv m w m' :
  rate L m w = Some m' ->
  exists v, m' = <[workerAddress w := v]> m /\
            MIN_REPUTATION <= v <= MAX_REPUTATION.
Proof.
  unfold rate, MIN_REPUTATION, MAX_REPUTATION.
  destruct (add L (reputationOf m (workerAddress w)) (reputation w))
    as [sum|] eqn:Hsum; cbn; [|discriminate].
  destruct (Z.ltb_spec 100 sum); cbn.
  { intros [= <-]. eexists; split; [reflexivity|lia]. }
  destruct (Z.eqb_spec (reputationOf m (workerAddress w)) 0); cbn.
  - destruct (add L (reputation w) 50) as [fresh|]; cbn; [|discriminate].
    destruct (Z.ltb_spec 100 fresh); cbn.
    { intros [= <-]. eexists; split; [reflexivity|lia]. }
    destruct (Z.ltb_spec fresh 1); cbn.
    { intros [= <-]. eexists; split; [reflexivity|lia]. }
    destruct (Z.ltb_spec sum 1); cbn;
      intros [= <-]; eexists; (split; [reflexivity|lia]).
  - destruct (Z.ltb_spec sum 1); cbn;
      intros [= <-]; eexists; (split; [reflexivity|lia]).
Qed.

Lemma rateAll_inv workers : forall m m',
  rateAll L m workers = Some m' ->
  (forall a, In a (map workerAddress workers) ->
     MIN_REPUTATION <= reputationOf m' a <= MAX_REPUTATION) /\
  (forall a, ~ In a (map workerAddress workers) -> m' !! a = m !! a).
Proof.
  induction workers as [|w rest IH]; intros m m' Hrun.
  - injection Hrun as <-. split; [intros a []|reflexivity].
  - cbn in Hrun. destruct (rate L m w) as [m1|] eqn:Hrate; [|discriminate].
    cbn in Hrun. destruct (rate_inv _ _ Hrate) as (v & -> & Hv).
    destruct (IH _ _ Hrun) as [Hin Hout]. split.
    + intros a Ha.
      destruct (in_dec Z.eq_dec a (map workerAddress rest)) as [Hr|Hr];
        [exact (Hin a Hr)|].
      destruct Ha as [<-|Ha]; [|contradiction].
      unfold reputationOf. rewrite (Hout _ Hr), lookup_insert_eq. exact Hv.
    + intros a Ha. cbn in Ha.
      rewrite Hout by tauto. apply lookup_insert_ne. tauto.
Qed.

(** X22: when [addReputations] does not revert, the caller had more tokens
    available than the minimum stake, every worker of the list ends with a
    reputation between 1 and 100, every other address keeps what it had,
    and owner, staking address and minimum stake are unchanged. *)
Theorem addReputations_bounds sender workers s s' :
  addReputations L sender workers s = Some s' ->
  (exists available,
     tokensAvailable L (staking s) sender = Some available /\
     minimumStake s < available) /\
  (forall a, In a (map workerAddress workers) ->
     1 <= reputationOf (reputations s') a <= 100) /\
  (forall a, ~ In a (map workerAddress workers) ->
     reputations s' !! a = reputations s !! a) /\
  owner s' = owner s /\ staking s' = staking s /\
  minimumStake s' = minimumStake s.
Proof.
  unfold addReputations. intros Hrun.
  destruct (tokensAvailable L (staking s) sender) as [available|];
    [|discriminate].
  cbn in Hrun. destruct (Z.ltb_spec (minimumStake s) available);
    [|discriminate].
  destruct (rateAll L (reputations s) workers) as [m|] eqn:Hrate;
    [|discriminate].
  injection Hrun as <-. destruct (rateAll_inv _ _ Hrate) as [Hin Hout].
  split; [eauto|]. cbn. auto.
Qed.

Lemma rate_exact m w :
  addsInRange L ->
  small (reputationOf m (workerAddress w)) -> small (reputation w) ->
  rate L m w =
    Some (<[workerAddress w :=
              clamp (base m (workerAddress w) + reputation w)]> m).
Proof.
  unfold addsInRange, small, rate, clamp, base, MIN_REPUTATION,
    MAX_REPUTATION.
  assert (H255 : 2 ^ 255 = 2 * 2 ^ 254) by reflexivity.
  assert (Hpos : 100 < 2 ^ 254) by reflexivity.
  rewrite H255. generalize dependent (2 ^ 254). intros B _ HB.
  intros Hadd Hcur Hrep.
  rewrite (Hadd (reputationOf m (workerAddress w)) (reputation w)) by lia.
  cbn [mbind option_bind].
  destruct (Z.eqb_spec (reputationOf m (workerAddress w)) 0) as [Hz|Hnz].
  - rewrite Hz in *. rewrite (Hadd (reputation w) 50) by lia.
    cbn [mbind option_bind]. rewrite Z.add_0_l.
    destruct (Z.ltb_spec 100 (reputation w)); cbn.
    { f_equal. f_equal. lia. }
    destruct (Z.ltb_spec 100 (reputation w + 50)); cbn.
    { f_equal. f_equal. lia. }
    destruct (Z.ltb_spec (reputation w + 50) 1); cbn.
    { f_equal. f_equal. lia. }
    rewrite andb_false_r. cbn. f_equal. f_equal. lia.
  - destruct (Z.ltb_spec 100 (reputationOf m (workerAddress w) + reputation w));
      cbn.
    { f_equal. f_equal. lia. }
    destruct (Z.ltb_spec (reputationOf m (workerAddress w) + reputation w) 1);
      cbn; f_equal; f_equal; lia.
Qed.

Lemma clamp_small z : small (clamp z).
Proof.
  unfold small, clamp, MIN_REPUTATION, MAX_REPUTATION.
  assert (Hpos : 100 < 2 ^ 254) by reflexivity.
  generalize dependent (2 ^ 254). intros B HB. lia.
Qed.

Lemma rateAll_exact workers : forall m,
  addsInRange L ->
  (forall a, small (reputationOf m a)) ->
  Forall (fun w => small (reputation w)) workers ->
  rateAll L m workers = Some (rated m workers).
Proof.
  induction workers as [|w rest IH]; intros m Hadd Hm Hws; [reflexivity|].
  inversion Hws as [|? ? Hw Hrest]; subst.
  cbn [rateAll]. rewrite (@rate_exact m w Hadd (Hm _) Hw).
  cbn [mbind option_bind]. unfold rated. cbn [fold_left].
  apply IH; [exact Hadd| |exact Hrest].
  intros a. unfold reputationOf. rewrite lookup_insert.
  destruct (decide (workerAddress w = a)); [apply clamp_small|apply Hm].
Qed.

(** X23: when the caller has the stake, [add] gives the sum wherever it
    fits an [int256], and the stored and the given reputations are far
    from the ends of [int256], [addReputations] does not revert and rates
    the workers in turn: each gets its reputation, or 50 if it has none,
    plus the given one, kept between 1 and 100. *)
Theorem addReputations_clamps sender workers s available :
  addsInRange L ->
  tokensAvailable L (staking s) sender = Some available ->
  minimumStake s < available ->
  (forall a, small (reputationOf (reputations s) a)) ->
  Forall (fun w => small (reputation w)) workers ->
  addReputations L sender workers s =
    Some {| owner := owner s; staking := staking s;
            minimumStake := minimumStake s;
            reputations := rated (reputations s) workers |}.
Proof.
  intros Hadd Hav Hlt Hm Hws. unfold addReputations. rewrite Hav.
  cbn [mbind option_bind].
  destruct (Z.ltb_spec (minimumStake s) available); [|lia].
  rewrite (@rateAll_exact workers _ Hadd Hm Hws). reflexivity.
Qed.

Lemma rateAll_range workers : forall m m',
  rateAll L m workers = Some m' ->
  (forall a v, m !! a = Some v -> MIN_REPUTATION <= v <= MAX_REPUTATION) ->
  forall a v, m' !! a = Some v -> MIN_REPUTATION <= v <= MAX_REPUTATION.
Proof.
  induction workers as [|w rest IH]; intros m m' Hrun Hm.
  - injection Hrun as <-. exact Hm.
  - cbn in Hrun. destruct (rate L m w) as [m1|] eqn:Hrate; [|discriminate].
    cbn in Hrun. destruct (rate_inv _ _ Hrate) as (v & -> & Hv).
    apply (IH _ _ Hrun). intros a x. rewrite lookup_insert.
    destruct (decide (workerAddress w = a)); [intros [= <-]; exact Hv|].
    apply Hm.
Qed.

(** X24: in every storage that the constructor and the calls that do not
    revert lead to, the staking address is not zero, the minimum stake is
    positive, and every reputation that was written is between 1 and
    100. *)
Theorem reachable_invariant s :
  reachable L s ->
  staking s <> 0 /\ 0 < minimumStake s /\
  forall a v, reputations s !! a = Some v -> 1 <= v <= 100.
Proof.
  induction 1 as [sender st ms s Hc|sender ws s s' _ IH Hadd
                 |sender ms s s' _ IH Hset].
  - unfold constructor, _setMinimumStake in Hc.
    destruct (Z.eqb_spec st 0); [discriminate|].
    destruct (Z.ltb_spec 0 ms); [|discriminate].
    injection Hc as <-. cbn. split; [assumption|]. split; [assumption|].
    intros addr x Hx. rewrite lookup_empty in Hx. discriminate.
  - destruct IH as (Hst & Hms & Hrep). unfold addReputations in Hadd.
    destruct (tokensAvailable L (staking s) sender) as [available|];
      [|discriminate].
    cbn in Hadd. destruct (minimumStake s <? available); [|discriminate].
    destruct (rateAll L (reputations s) ws) as [m|] eqn:Hrate;
      [|discriminate].
    injection Hadd as <-. cbn. split; [assumption|]. split; [assumption|].
    exact (rateAll_range _ _ Hrate Hrep).
  - destruct IH as (Hst & Hms & Hrep).
    unfold setMinimumStake, _setMinimumStake in Hset.
    destruct (sender =? owner s); [|discriminate].
    destruct (Z.ltb_spec 0 ms); [|discriminate].
    injection Hset as <-. cbn. split; [assumption|]. split; assumption.
Qed.

(** X25: [getReputations] after an [addReputations] that did not revert
    gives, for the addresses of the rated workers in their order, these
    addresses with reputations between 1 and 100. *)
Theorem getReputations_after_add sender workers s s' :
  addReputations L sender workers s = Some s' ->
  map workerAddress (getReputations (map workerAddress workers) s')
    = map workerAddress workers /\
  Forall (fun w => 1 <= reputation w <= 100)
         (getReputations (map workerAddress workers) s').
Proof.
  unfold addReputations. intros Hrun.
  destruct (tokensAvailable L (staking s) sender) as [available|];
    [|discriminate].
  cbn in Hrun. destruct (minimumStake s <? available); [|discriminate].
  destruct (rateAll L (reputations s) workers) as [m|] eqn:Hrate;
    [|discriminate].
  injection Hrun as <-. destruct (rateAll_inv _ _ Hrate) as [Hin _].
  unfold getReputations. cbn [reputations]. split.
  - rewrite map_map. cbn. apply map_id.
  - apply List.Forall_forall. intros w Hw. apply in_map_iff in Hw.
    destruct Hw as (a & <- & Ha). cbn. exact (Hin a Ha).
Qed.
End ReputationContract.

(** * Properties of [registerAddress] *)
Section RegisterAddress.
Import UserService.
Variable signMessage : Z -> string -> string.

(** X26: [registerAddress] signs exactly when the user has no address, or
    an empty one, or this very address, and the KYC of the user is
    approved; then the user is saved with this address.  Otherwise the
    user is not saved and not changed, and a different address is reported
    before a KYC that is not approved. *)
Theorem registerAddress_outcome u data :
  let res := registerAddress signMessage u data in
  let free := truthyStr (evmAddress u) = false \/
              evmAddress u = Some (address data) in
  let approved := exists k, kyc u = Some k /\ status k = APPROVED in
  (free /\ approved ->
   outcome res = inr (signMessage (chainId data) (address data)) /\
   saved res = true /\
   user res = {| evmAddress := Some (address data); kyc := kyc u |}) /\
  (~ free ->
   outcome res = inl (BadRequestException IncorrectAddress) /\
   saved res = false /\ user res = u) /\
  (free /\ ~ approved ->
   outcome res = inl (BadRequestException KycNotApproved) /\
   saved res = false /\ user res = u).
Proof.
  cbv zeta. unfold registerAddress.
  set (free := truthyStr (evmAddress u) = false \/
               evmAddress u = Some (address data)).
  set (approved := exists k, kyc u = Some k /\ status k = APPROVED).
  assert (Hfree : truthyStr (evmAddress u)
                  && negb (bool_decide (evmAddress u = Some (address data)))
                  = false <-> free).
  { unfold free. rewrite andb_false_iff, negb_false_iff, bool_decide_eq_true.
    reflexivity. }
  assert (Happroved :
            negb (bool_decide (status <$> kyc u = Some APPROVED)) = false
            <-> approved).
  { unfold approved. rewrite negb_false_iff, bool_decide_eq_true. split.
    - destruct (kyc u) as [k|]; [|discriminate]. cbn. intros [= Hk]. eauto.
    - intros (k & -> & Hk). cbn. congruence. }
  destruct (truthyStr (evmAddress u) && _) eqn:Hb1.
  - assert (Hnf : ~ free) by (intros Hf; apply Hfree in Hf; discriminate).
    cbn. repeat split; reflexivity || tauto.
  - assert (Hf : free) by (apply Hfree; reflexivity).
    destruct (negb (bool_decide (status <$> kyc u = Some APPROVED)))
      eqn:Hb2.
    + assert (Hna : ~ approved)
        by (intros Ha; apply Happroved in Ha; discriminate).
      cbn. repeat split; reflexivity || tauto.
    + assert (Ha : approved) by (apply Happroved; reflexivity).
      cbn. repeat split; reflexivity || tauto.
Qed.

(** X27: an address that is registered and not empty is kept: every later
    request with another address fails with [IncorrectAddress] and leaves
    the user as it is, and a request with the same address changes
    nothing. *)
Theorem registerAddress_keeps_address u data data' signature :
  outcome (registerAddress signMessage u data) = inr signature ->
  address data <> "" ->
  let u1 := user (registerAddress signMessage u data) in
  evmAddress u1 = Some (address data) /\
  (address data' <> address data ->
   outcome (registerAddress signMessage u1 data')
     = inl (BadRequestException IncorrectAddress) /\
   user (registerAddress signMessage u1 data') = u1) /\
  (address data' = address data ->
   user (registerAddress signMessage u1 data') = u1 /\
   outcome (registerAddress signMessage u1 data')
     = inr (signMessage (chainId data') (address data))).
Proof.
  cbv zeta. intros Hout Hne.
  assert (Hk : negb (bool_decide (status <$> kyc u = Some APPROVED)) = false
               /\ user (registerAddress signMessage u data)
                  = {| evmAddress := Some (address data); kyc := kyc u |}).
  { unfold registerAddress in *.
    destruct (truthyStr (evmAddress u) && _); [discriminate|].
    destruct (negb (bool_decide (status <$> kyc u = Some APPROVED)));
      [discriminate|]. split; reflexivity. }
  destruct Hk as [Hk ->]. clear Hout. cbn [evmAddress].
  split; [reflexivity|].
  assert (Ht : truthyStr (Some (address data)) = true).
  { cbn. destruct (String.eqb_spec (address data) ""); [contradiction|].
    reflexivity. }
  unfold registerAddress. cbn [evmAddress kyc]. rewrite Ht, Hk. cbn [andb].
  split.
  - intros Hd. rewrite bool_decide_eq_false_2 by congruence. cbn. auto.
  - intros ->. rewrite bool_decide_eq_true_2 by reflexivity. cbn. auto.
Qed.
End RegisterAddress.

(** * The further properties on the samples *)
Section MoreSamples.
Import sample sampleMore.

Lemma chain_80001_ok (e : Env Qc string) fundAmount :
  web3Service_validateChainId e 80001 = None ->
  forall c, JobDto.chainId (dto (Some 80001) fundAmount) = Some c -> c <> 0 ->
            web3Service_validateChainId e c = None.
Proof. intros He c [= <-] _. exact He. Qed.

(** A balance of 55 against a total of 55 is accepted; one of 54 is not. *)
Lemma createJob_NotEnoughFunds_iff_witness :
  fst (createJob (env (q 55) None None true None) 1 FORTUNE
                 (dto (Some 80001) 50) st0)
    <> Thrown (BadRequestException ErrorJob_NotEnoughFunds) /\
  fst (createJob (env (q 54) None None true None) 1 FORTUNE
                 (dto (Some 80001) 50) st0)
    = Thrown (BadRequestException ErrorJob_NotEnoughFunds).
Proof.
  split.
  - intros Heq.
    apply (createJob_NotEnoughFunds_iff (env (q 55) None None true None)
             1 FORTUNE (dto (Some 80001) 50) st0) in Heq.
    + vm_compute in Heq. discriminate.
    + apply chain_80001_ok. reflexivity.
  - apply (createJob_NotEnoughFunds_iff (env (q 54) None None true None)
             1 FORTUNE (dto (Some 80001) 50) st0).
    + apply chain_80001_ok. reflexivity.
    + vm_compute. reflexivity.
Defined.

(** The storage client gives no file. *)
Lemma createJob_upload_failed_witness :
  fst (createJob (envWith None true None None env0) 1 FORTUNE
                 (dto (Some 80001) 50) st0)
    = Thrown (BadGatewayException ErrorBucket_UnableSaveFile) /\
  jobs (snd (createJob (envWith None true None None env0) 1 FORTUNE
                       (dto (Some 80001) 50) st0)) = jobs st0.
Proof.
  destruct (createJob_upload_failed (envWith None true None None env0)
              1 FORTUNE (dto (Some 80001) 50) st0
              (trace (snd (createJob (envWith None true None None env0) 1
                                     FORTUNE (dto (Some 80001) 50) st0)))
              (fortuneManifest (dto (Some 80001) 50) FORTUNE
                 (createJob_tokenFundAmount (q 50) (q 2))))
    as (Hr & Hjobs & _).
  - reflexivity.
  - vm_compute. tauto.
  - reflexivity.
  - split; assumption.
Defined.

(** The job repository resolves to nothing. *)
Lemma createJob_not_created_witness :
  fst (createJob (envWith (Some file) false None None env0) 1 FORTUNE
                 (dto (Some 80001) 50) st0)
    = Thrown (NotFoundException ErrorJob_NotCreated) /\
  payments (snd (createJob (envWith (Some file) false None None env0) 1
                           FORTUNE (dto (Some 80001) 50) st0)) = payments st0.
Proof.
  destruct (createJob_not_created (envWith (Some file) false None None env0)
              1 FORTUNE (dto (Some 80001) 50) st0
              (trace (snd (createJob
                             (envWith (Some file) false None None env0) 1
                             FORTUNE (dto (Some 80001) 50) st0))))
    as (Hr & _ & Hpay & _).
  - reflexivity.
  - vm_compute. tauto.
  - split; assumption.
Defined.

(** The request of 50 returns 1; the table then counts from 2 and there is
    one payment. *)
Lemma createJob_returns_witness :
  fst (createJob env0 1 FORTUNE (dto (Some 80001) 50) st0) = Returned 1 /\
  jobSeq (snd (createJob env0 1 FORTUNE (dto (Some 80001) 50) st0)) = 2 /\
  length (payments (snd (createJob env0 1 FORTUNE
                                   (dto (Some 80001) 50) st0))) = 1%nat.
Proof.
  assert (Hr : fst (createJob env0 1 FORTUNE (dto (Some 80001) 50) st0)
               = Returned 1) by (vm_compute; reflexivity).
  destruct (createJob_returns env0 1 FORTUNE (dto (Some 80001) 50) st0 Hr)
    as (_ & Hseq & Hpay & _).
  split; [exact Hr|]. split; [exact Hseq|]. rewrite Hpay. reflexivity.
Defined.

(** The debit is rejected: the call throws, no payment is recorded. *)
Lemma createJob_thrown_witness :
  payments (snd (createJob (env (q 100) (Some overflow) None true None) 1
                           FORTUNE (dto (Some 80001) 50) st0)) = [].
Proof.
  assert (Hr : fst (createJob (env (q 100) (Some overflow) None true None) 1
                              FORTUNE (dto (Some 80001) 50) st0)
               = Thrown (ConflictException ErrorPayment_IncorrectAmount))
    by (vm_compute; reflexivity).
  exact (proj1 (createJob_thrown _ _ _ _ _ Hr)).
Defined.

(** A request without chain id: the selector is called once. *)
Lemma createJob_selects_network_witness :
  routingCalls (snd (createJob env0 1 FORTUNE (dto None 50) st0)) = 1%nat.
Proof.
  destruct (createJob_selects_network env0 1 FORTUNE (dto None 50) st0
              eq_refl) as (evs & Htr & _ & _ & Hcalled & _).
  apply Hcalled.
  change (trace st0 ++ evs) with evs in Htr. rewrite <- Htr.
  vm_compute. tauto.
Defined.

(** An annotation request without labels. *)
Lemma createJob_labels_missing_witness :
  fst (createJob env0 1 IMAGE_BOXES (dto (Some 80001) 50) st0)
    = Thrown TypeError.
Proof.
  refine (proj1 (createJob_labels_missing env0 1 (requestType:=IMAGE_BOXES)
                   (dto (Some 80001) 50) st0 _ eq_refl _ _)).
  - discriminate.
  - apply chain_80001_ok. reflexivity.
  - vm_compute. reflexivity.
Defined.

(** The manifest uploaded for an annotation request makes [launchJob] post
    the webhook. *)
Lemma createJob_uploaded_manifest_witness :
  hasAnnotationType (cvatManifest env0 cvatDto IMAGE_BOXES ["cat"]) = true.
Proof.
  refine (proj1 (proj2 (createJob_uploaded_manifest env0 1 IMAGE_BOXES
                          cvatDto st0
                          (cvatManifest env0 cvatDto IMAGE_BOXES ["cat"])
                          _ _))).
  - vm_compute. tauto.
  - intros [].
Defined.

(** The escrow client gives no address. *)
Lemma launchJob_escrow_not_created_witness :
  fst (launchJob (envWith (Some file) true None None env0)
                 paidJob (stWith paidJob))
    = Thrown (NotFoundException ErrorEscrow_NotCreated).
Proof.
  exact (proj1 (launchJob_escrow_not_created
                  (envWith (Some file) true None None env0)
                  paidJob (stWith paidJob) eq_refl)).
Defined.

(** The manifest is not in the store. *)
Lemma launchJob_manifest_not_found_witness :
  fst (launchJob env0 paidJob (stWith paidJob))
    = Thrown (NotFoundException ErrorJob_ManifestNotFound).
Proof.
  exact (proj1 (launchJob_manifest_not_found env0
                  paidJob (stWith paidJob) eq_refl eq_refl)).
Defined.

(** A fortune job is launched. *)
Lemma launchJob_returns_witness :
  fst (launchJob (env (q 100) None (Some fortuneManifestOk) true None)
                 paidJob (stWith paidJob)) = Returned launchedJob /\
  jobs (snd (launchJob (env (q 100) None (Some fortuneManifestOk) true None)
                       paidJob (stWith paidJob))) !! 1 = Some launchedJob.
Proof.
  assert (Hr : fst (launchJob
                      (env (q 100) None (Some fortuneManifestOk) true None)
                      paidJob (stWith paidJob)) = Returned launchedJob)
    by (vm_compute; reflexivity).
  destruct (launchJob_returns _ _ _ Hr)
    as (a & m & _ & _ & _ & _ & _ & _ & Hjobs & _).
  split; [exact Hr|]. rewrite Hjobs. apply lookup_insert_eq.
Defined.


(** The result of a launched job. *)
Lemma getResult_returns_witness :
  exists job url,
    launchedJobOf (stWith launchedJob) 1 1 job /\
    downloadResult (env (q 100) None None true (Some "fortune result")) url
      = Some "fortune result".
Proof.
  assert (Hr : fst (getResult
                      (env (q 100) None None true (Some "fortune result"))
                      1 1 (stWith launchedJob)) = Returned "fortune result")
    by (vm_compute; reflexivity).
  destruct (getResult_returns _ _ _ _ Hr)
    as (job & url & Hjob & _ & _ & Hdl & _).
  exists job, url. split; assumption.
Defined.

(** The results url is empty. *)
Lemma getResult_ResultNotFound_witness :
  fst (getResult (envWith (Some file) true None (Some "") env0)
                 1 1 (stWith launchedJob))
    = Thrown (NotFoundException ErrorJob_ResultNotFound).
Proof.
  apply getResult_ResultNotFound. exists launchedJob.
  split; [split; [reflexivity|split; reflexivity]|].
  left. reflexivity.
Defined.

(** A balance of exactly 55 pays a request of 50 at 10 percent. *)
Lemma createJob_exact_debit_witness :
  exists p,
    payments (snd (createJob (env (q 55) None None true None) 1 FORTUNE
                             (dto (Some 80001) 50) st0)) = [p] /\
    PaymentEntity.amount p = q (-110).
Proof.
  assert (Hr : fst (createJob (env (q 55) None None true None) 1 FORTUNE
                              (dto (Some 80001) 50) st0) = Returned 1)
    by (vm_compute; reflexivity).
  destruct (createJob_exact_debit _ _ _ _ _ Hr)
    as (_ & p & Hpay & _ & Ha & _).
  exists p. split; [exact Hpay|]. rewrite Ha.
  apply Qc_is_canon. vm_compute. reflexivity.
Defined.

Lemma entries_not_inherited :
  Forall (fun entry => rewards.fortune entry ∉ rewards.objectPrototype)
         entries.
Proof.
  repeat constructor; intros Hin; apply list_elem_of_In in Hin;
    cbn in Hin; repeat (destruct Hin as [Hin|Hin]; [discriminate|]);
    exact Hin.
Qed.

(** Three entries with two distinct fortunes: two workers are rewarded. *)
Lemma filterAddressesToReward_distinct_witness :
  length (rewards.workerAddresses
            (rewards.filterAddressesToReward web3 entries)) = 2%nat.
Proof.
  rewrite (filterAddressesToReward_distinct web3 entries_not_inherited).
  vm_compute. reflexivity.
Defined.

Lemma filterAddressesToReward_expected_witness :
  rewards.filterAddressesToReward web3 entries
    = {| rewards.workerAddresses := ["0xA"; "0xB"];
         rewards.reputationValues :=
           [ {| rewards.workerAddress := "0xA"; rewards.reputation := 1 |};
             {| rewards.workerAddress := "0xB"; rewards.reputation := 1 |};
             {| rewards.workerAddress := "0xC"; rewards.reputation := -1 |} ]
      |}.
Proof.
  rewrite (filterAddressesToReward_expected web3 entries_not_inherited).
  reflexivity.
Defined.

Lemma libraries_addsInRange : Reputation.addsInRange libraries.
Proof.
  intros a b [Hlo Hhi]. unfold libraries. cbn [Reputation.add].
  apply Z.leb_le in Hlo. apply Z.ltb_lt in Hhi. rewrite Hlo, Hhi.
  reflexivity.
Qed.

Lemma storage_small a :
  Reputation.small
    (Reputation.reputationOf (Reputation.reputations storage) a).
Proof.
  unfold Reputation.reputationOf, storage. cbn [Reputation.reputations].
  rewrite lookup_insert. case_decide; [split; reflexivity|].
  rewrite lookup_singleton. case_decide; split; reflexivity.
Qed.

Lemma workers_small :
  Forall (fun w => Reputation.small (Reputation.reputation w)) workers.
Proof. repeat constructor. Qed.

(** Caller 5 rates four workers: address 1 stays at 100, address 2 at 1,
    address 3, which had nothing, goes to 51 and back to 50. *)
Lemma addReputations_bounds_witness :
  exists s',
    Reputation.addReputations libraries 5 workers storage = Some s' /\
    1 <= Reputation.reputationOf (Reputation.reputations s') 3 <= 100 /\
    Reputation.reputations s' !! 4 = None.
Proof.
  eexists. split; [vm_compute; reflexivity|].
  match goal with
  | |- context [Reputation.reputations ?s] =>
      destruct (addReputations_bounds libraries 5 workers storage (s':=s))
        as (_ & Hin & Hout & _); [vm_compute; reflexivity|]
  end.
  split; [apply Hin; cbn; tauto|].
  rewrite Hout; [reflexivity|]. cbn. intros [H|[H|[H|[H|[]]]]]; discriminate.
Defined.

Lemma addReputations_clamps_witness :
  exists s',
    Reputation.addReputations libraries 5 workers storage = Some s' /\
    Reputation.reputations s' !! 1 = Some 100 /\
    Reputation.reputations s' !! 2 = Some 1 /\
    Reputation.reputations s' !! 3 = Some 50.
Proof.
  eexists. split.
  - apply (addReputations_clamps (L:=libraries) 5 (workers:=workers)
             storage (available:=10)).
    + exact libraries_addsInRange.
    + reflexivity.
    + reflexivity.
    + exact storage_small.
    + exact workers_small.
  - cbn [Reputation.reputations]. repeat split; vm_compute; reflexivity.
Defined.

(** A contract set up by 7 with stake 1, after one rating. *)
Lemma reachable_invariant_witness :
  exists s,
    Reputation.reachable libraries s /\
    Reputation.reputations s !! 3 = Some 50 /\
    0 < Reputation.minimumStake s /\ Reputation.staking s <> 0.
Proof.
  assert (Hinit : Reputation.constructor 7 9 1
                  = Some {| Reputation.owner := 7; Reputation.staking := 9;
                            Reputation.minimumStake := 1;
                            Reputation.reputations := ∅ |}) by reflexivity.
  destruct (Reputation.addReputations libraries 5 workers
              {| Reputation.owner := 7; Reputation.staking := 9;
                 Reputation.minimumStake := 1;
                 Reputation.reputations := ∅ |}) as [s|] eqn:Hadd;
    [|vm_compute in Hadd; discriminate].
  assert (Hreach : Reputation.reachable libraries s).
  { eapply Reputation.reachable_addReputations; [|exact Hadd].
    eapply Reputation.reachable_constructor. exact Hinit. }
  exists s. split; [exact Hreach|].
  destruct (reachable_invariant Hreach) as (Hst & Hms & _).
  split; [|split; assumption].
  vm_compute in Hadd. injection Hadd as <-. vm_compute. reflexivity.
Defined.

Lemma getReputations_after_add_witness :
  exists s',
    Reputation.addReputations libraries 5 workers storage = Some s' /\
    map Reputation.workerAddress
        (Reputation.getReputations
           (map Reputation.workerAddress workers) s') = [1; 2; 3; 3].
Proof.
  eexists. split; [vm_compute; reflexivity|].
  match goal with
  | |- context [Reputation.getReputations _ ?s] =>
      destruct (getReputations_after_add libraries 5 workers storage (s':=s))
        as (Hmap & _); [vm_compute; reflexivity|]
  end.
  rewrite Hmap. reflexivity.
Defined.

(** An approved user registers ["0xA"]; ["0xB"] is then refused. *)
Lemma registerAddress_keeps_address_witness :
  UserService.outcome
    (UserService.registerAddress sign
       (UserService.user
          (UserService.registerAddress sign approvedUser
             {| UserService.chainId := 1; UserService.address := "0xA" |}))
       {| UserService.chainId := 1; UserService.address := "0xB" |})
    = inl (UserService.BadRequestException UserService.IncorrectAddress).
Proof.
  destruct (registerAddress_keeps_address sign approvedUser
              {| UserService.chainId := 1; UserService.address := "0xA" |}
              {| UserService.chainId := 1; UserService.address := "0xB" |}
              (signature := "signed:0xA"))
    as (_ & Hother & _).
  - reflexivity.
  - discriminate.
  - apply Hother. discriminate.
Defined.

(** A user without KYC is refused; so is, first, another address. *)
Lemma registerAddress_outcome_witness :
  UserService.outcome
    (UserService.registerAddress sign
       {| UserService.evmAddress := None; UserService.kyc := None |}
       {| UserService.chainId := 1; UserService.address := "0xA" |})
    = inl (UserService.BadRequestException UserService.KycNotApproved).
Proof.
  destruct (registerAddress_outcome sign
              {| UserService.evmAddress := None; UserService.kyc := None |}
              {| UserService.chainId := 1; UserService.address := "0xA" |})
    as (_ & _ & Hkyc).
  apply Hkyc. split; [left; reflexivity|].
  intros (k & Hk & _). discriminate.
Defined.
End MoreSamples.
